(** * host-injector: the mutating admission webhook, embedded and verified

    The repository holds two versions of the same program: [main.go] and a
    second, refactored file (here module [Refactored]).  Both decode a Pod
    from an admission request, decide by the label [k8s-app] whether the Pod
    takes part, list the Services of the cluster, derive host aliases from
    them and answer with an admission response.

    The embedding is shallow.  Go values become Rocq values, the process
    wide client handle becomes explicit state, a panic becomes an outcome,
    and the libraries the program calls (encoding/json, jsonpatch, the
    Kubernetes client) are an interface the development is parametric in. *)

From Stdlib Require Import ZArith Strings.Byte.
From stdpp Require Import gmap strings list.

(** ** Go values *)

(** A byte sequence, [[]byte]. *)
Abbreviation bytes := (list byte).

Definition bytes_of (s : string) : bytes := String.list_byte_of_string s.

(** A Go slice is either nil or a (possibly empty) sequence. *)
Definition slice (A : Type) : Type := option (list A).

Definition elems {A} (s : slice A) : list A := default [] s.

Definition len {A} (s : slice A) : nat := length (elems s).

(** [make([]T, 0)]: empty, but not nil. *)
Definition make {A} : slice A := Some [].

(** [append(s, x)]: the result is never nil. *)
Definition append {A} (s : slice A) (x : A) : slice A := Some (elems s ++ [x]).

(** [append(s, b...)] *)
Definition append_all {A} (s : slice A) (b : list A) : slice A :=
  match s, b with
  | None, [] => None
  | _, _ => Some (elems s ++ b)
  end.

(** A Go [error] is observed through [err.Error()] only. *)
Abbreviation error := string.

(** The two results of a call [v, err := f()]. *)
Abbreviation result A := (A + error)%type.
Abbreviation Ok := inl.
Abbreviation Err := inr.

(** ** Kubernetes objects *)

Record HostAlias := {
  IP : string;
  Hostnames : list string
}.

(** The fields of [corev1.Service] the program reads. *)
Record Service := {
  GetName : string;
  GetNamespace : string;
  Spec_Type : string;
  Spec_ClusterIP : string
}.

(** [corev1.ServiceTypeClusterIP]; [ServiceType] is a string type. *)
Definition ServiceTypeClusterIP : string := "ClusterIP".

Definition watchingLabelKey : string := "k8s-app".

Definition StatusBadRequest : Z := 400%Z.
Definition StatusInternalServerError : Z := 500%Z.

Record Status := {
  Code : Z;
  Message : string
}.

Variant PatchType_t := PatchTypeJSONPatch.

(** [v1.AdmissionResponse].  A field left out of a composite literal has
    its zero value: the empty string, [false], nil. *)
Record AdmissionResponse := {
  UID : string;
  Allowed : bool;
  Result : option Status;
  Patch : slice byte;
  PatchType : option PatchType_t;
  Warnings : slice string
}.

Record AdmissionRequest := {
  req_UID : string;
  Object_Raw : bytes
}.

(** [req.Request] is a pointer, nil when the review carries no request. *)
Record AdmissionReview := {
  Request : option AdmissionRequest
}.

(** The part of a Pod nothing here looks at is kept as it is. *)
Class PodSchema := {
  PodRest : Type;
  zeroRest : PodRest
}.

Record Pod `{PodSchema} := {
  Labels : option (gmap string string);
  Spec_HostAliases : slice HostAlias;
  rest : PodRest
}.

(** [corev1.Pod{}] *)
Definition zeroPod `{PodSchema} : Pod :=
  {| Labels := None; Spec_HostAliases := None; rest := zeroRest |}.

Definition with_HostAliases `{PodSchema} (pod : Pod) (h : slice HostAlias) : Pod :=
  {| Labels := Labels pod; Spec_HostAliases := h; rest := rest pod |}.

(** ** The libraries, as an interface *)

(** [json_Unmarshal raw] is the Pod that [json.Unmarshal(raw, &pod)] leaves
    in a fresh [pod], with the error it returns: the decoder may have filled
    some fields before it fails.  [Getenv_KUBECONFIG] is the value of the
    environment variable [clientcmd.RecommendedConfigPathEnvVar], and
    [Services_List c] what the directory answers to
    [c.CoreV1().Services(all namespaces).List] with the handle [c]. *)
Class Library `{PodSchema} := {
  Operation : Type;
  Config : Type;
  Clientset : Type;
  json_Unmarshal : bytes -> Pod * option error;
  json_Marshal : Pod -> result bytes;
  CreatePatch : bytes -> bytes -> result (list Operation);
  MarshalJSON : Operation -> result bytes;
  InClusterConfig : result Config;
  Getenv_KUBECONFIG : string;
  RecommendedHomeFile : string;
  BuildConfigFromFlags : string -> string -> result Config;
  NewForConfig : Config -> result Clientset;
  Services_List : Clientset -> result (list Service)
}.

(** ** Eligibility *)

(** Reading a nil map gives the zero value and [ok = false]. *)
Definition map_index (m : option (gmap string string)) (k : string) : string * bool :=
  match m with
  | None => (EmptyString, false)
  | Some m =>
      match m !! k with
      | Some v => (v, true)
      | None => (EmptyString, false)
      end
  end.

Definition isWatching `{PodSchema} (pod : Pod) : bool :=
  let '(_, ok) := map_index (Labels pod) watchingLabelKey in
  if negb ok then false else true.

(** ** Host aliases from the Services *)

(** [fmt.Sprintf] with the three formats of the source. *)
Definition domain1 (service : Service) : string :=
  GetName service +:+ "." +:+ GetNamespace service +:+ ".svc.cluster.local".
Definition domain2 (service : Service) : string :=
  GetName service +:+ "." +:+ GetNamespace service +:+ ".svc".
Definition domain3 (service : Service) : string :=
  GetName service +:+ "." +:+ GetNamespace service.

(** One turn of the loop over [services.Items]. *)
Definition hostAliases_step (hostAliases : slice HostAlias) (service : Service)
  : slice HostAlias :=
  if negb (String.eqb (Spec_Type service) ServiceTypeClusterIP) then hostAliases
  else if String.eqb (Spec_ClusterIP service) EmptyString
          || String.eqb (Spec_ClusterIP service) "None" then hostAliases
  else append hostAliases
         {| IP := Spec_ClusterIP service;
            Hostnames := [domain1 service; domain2 service; domain3 service] |}.

(** The function past the listing call: [items] is [services.Items]. *)
Definition hostAliases_of_items (items : list Service) : slice HostAlias :=
  if Nat.eqb (length items) 0 then None
  else fold_left hostAliases_step items make.

(** ** The process: state, panics *)

(** The two package variables: [initClient], a [sync.Once], and [_cli]. *)
Record Process `{Library} := {
  initClient_done : bool;
  _cli : option Clientset
}.

Definition start `{Library} : Process :=
  {| initClient_done := false; _cli := None |}.

Variant outcome (A : Type) :=
  | Returns (a : A)
  | Panics (msg : string).
Arguments Returns {A} a.
Arguments Panics {A} msg.

(** A piece of Go code: it runs in a process, changes it, and returns or
    panics. *)
Definition Go `{Library} (A : Type) : Type := Process -> outcome A * Process.

Definition ret `{Library} {A} (a : A) : Go A := fun p => (Returns a, p).

Definition panic `{Library} {A} (msg : string) : Go A := fun p => (Panics msg, p).

Definition bind `{Library} {A B} (c : Go A) (k : A -> Go B) : Go B :=
  fun p =>
    match c p with
    | (Returns a, p') => k a p'
    | (Panics msg, p') => (Panics msg, p')
    end.

Notation "'do' x <- c ; k" := (bind c (fun x => k))
  (at level 10, x name, c at level 100, k at level 200).

(** Following a pointer: nil panics. *)
Definition deref `{Library} {A} (ptr : option A) : Go A :=
  match ptr with
  | Some a => ret a
  | None => panic "invalid memory address or nil pointer dereference"
  end.

(** ** The client handle *)

Definition newClient `{Library} : result Clientset :=
  let config :=
    match InClusterConfig with
    | Ok config => Ok config
    | Err _ =>
        let configPath :=
          if Nat.ltb 0 (String.length Getenv_KUBECONFIG)
          then Getenv_KUBECONFIG else RecommendedHomeFile in
        BuildConfigFromFlags EmptyString configPath
    end in
  match config with
  | Err err => Err ("error building kubeconfig: " +:+ err)
  | Ok config => NewForConfig config
  end.

(** [initClient.Do] runs its function the first time only; a function that
    panics counts as having run.  The deferred function panics again with
    the message of the error it finds. *)
Definition client `{Library} : Go (option Clientset) :=
  fun p =>
    if initClient_done p then (Returns (_cli p), p)
    else
      match newClient with
      | Err err =>
          (Panics ("error creating Kubernetes client: " +:+ err),
           {| initClient_done := true; _cli := _cli p |})
      | Ok c =>
          (Returns (Some c), {| initClient_done := true; _cli := Some c |})
      end.

(** [getHostAliasesFromServices]: the same text in both files, but for the
    context the refactored one passes on to the listing call.  [CoreV1]
    reads a field of the handle, so a nil handle panics. *)
Definition getHostAliasesFromServices `{Library} : Go (result (slice HostAlias)) :=
  do handle <- client;
  do c <- deref handle;
  match Services_List c with
  | Err err => ret (Err err)
  | Ok items => ret (Ok (hostAliases_of_items items))
  end.

(** ** JSON text *)

(** What [json.Marshal] writes for a slice of maps from strings to strings
    that need no escaping: the keys of a map come out sorted. *)
Definition dquote : string := String (Ascii.ascii_of_nat 34) EmptyString.

Definition json_string (s : string) : string := dquote +:+ s +:+ dquote.

Definition json_member (kv : string * string) : string :=
  json_string kv.1 +:+ ":" +:+ json_string kv.2.

Definition json_object (members : list (string * string)) : string :=
  "{" +:+ String.concat "," (map json_member members) +:+ "}".

Definition json_array (items : list string) : string :=
  "[" +:+ String.concat "," items +:+ "]".

(** ** What goes on the wire *)

(** [handleMutatePod] encodes the response with encoding/json.  The fields
    [patch], [patchType], [warnings] and [status] of [v1.AdmissionResponse]
    are tagged [omitempty]: a slice of length zero, nil or not, and a nil
    pointer are left out. *)
Definition carries_patch (r : AdmissionResponse) : bool :=
  negb (Nat.eqb (len (Patch r)) 0).

Definition carries_patchType (r : AdmissionResponse) : bool :=
  match PatchType r with Some _ => true | None => false end.

Definition carries_warnings (r : AdmissionResponse) : bool :=
  negb (Nat.eqb (len (Warnings r)) 0).

(** A JSON array starts with a bracket and ends with one. *)
Definition bracketed (b : bytes) : bool :=
  match b with
  | x5b :: _ => match last b with Some x5d => true | _ => false end
  | _ => false
  end.

(** ** The refactored file *)

Module Refactored.

Definition responseErrored (uid : string) (code : Z) (err : error) : AdmissionResponse :=
  {| UID := uid;
     Allowed := false;
     Result := Some {| Code := code; Message := err |};
     Patch := None; PatchType := None; Warnings := None |}.

Definition responseAllowed (uid : string) (msg : string) : AdmissionResponse :=
  {| UID := uid;
     Allowed := true;
     Result := Some {| Code := 0; Message := msg |};
     Patch := None; PatchType := None; Warnings := None |}.

(** The loop of [patchResponseFromRaw]: the bytes of every operation are
    appended to [patchBytes] as they are; an operation that does not
    encode ends the function with an error response. *)
Fixpoint marshalPatches `{Library} (uid : string) (patches : list Operation)
    (patchBytes : slice byte) : AdmissionResponse + slice byte :=
  match patches with
  | [] => inr patchBytes
  | p :: patches =>
      match MarshalJSON p with
      | Err err => inl (responseErrored uid StatusInternalServerError err)
      | Ok b => marshalPatches uid patches (append_all patchBytes b)
      end
  end.

Definition patchResponseFromRaw `{Library} (uid : string) (original current : bytes)
  : AdmissionResponse :=
  match CreatePatch original current with
  | Err err => responseErrored uid StatusInternalServerError err
  | Ok patches =>
      match marshalPatches uid patches make with
      | inl response => response
      | inr patchBytes =>
          {| UID := uid;
             Allowed := true;
             Result := None;
             Patch := patchBytes;
             PatchType :=
               if Nat.eqb (length patches) 0 then None
               else Some PatchTypeJSONPatch;
             Warnings := None |}
      end
  end.

(** The Pod after the two statements that add the aliases. *)
Definition addHostAliases `{Library} (pod : Pod) (hostAliases : slice HostAlias) : Pod :=
  let pod :=
    match Spec_HostAliases pod with
    | None => with_HostAliases pod make
    | Some _ => pod
    end in
  fold_left
    (fun pod hostAlias =>
       with_HostAliases pod (append (Spec_HostAliases pod) hostAlias))
    (elems hostAliases) pod.

(** The response built when decoding fails is not returned: the function
    goes on with the Pod the decoder left. *)
Definition mutatePods `{Library} (req : AdmissionReview) : Go AdmissionResponse :=
  do request <- deref (Request req);
  let uid := req_UID request in
  let '(pod, err) := json_Unmarshal (Object_Raw request) in
  let _ :=
    match err with
    | Some err => Some (responseErrored uid StatusBadRequest err)
    | None => None
    end in
  if negb (isWatching pod) then ret (responseAllowed uid "Pod is not watching")
  else
    do found <- getHostAliasesFromServices;
    match found with
    | Err err =>
        let err := "failed to get host aliases: " +:+ err in
        ret (responseErrored uid StatusInternalServerError err)
    | Ok hostAliases =>
        if Nat.eqb (len hostAliases) 0
        then ret (responseAllowed uid "No host aliases found")
        else
          let pod := addHostAliases pod hostAliases in
          match json_Marshal pod with
          | Err err => ret (responseErrored uid StatusInternalServerError err)
          | Ok resp => ret (patchResponseFromRaw uid (Object_Raw request) resp)
          end
    end.

End Refactored.

(** ** main.go *)

Module MainGo.

(** The literal handed to [json.Marshal], keys in sorted order.  Encoding it
    cannot fail, so the error branch after the call is dead. *)
Definition patch_literal : list (list (string * string)) :=
  [[("op", "add"); ("path", "/metadata/labels/env"); ("value", "dev")]].

Definition marshal_literal : bytes :=
  bytes_of (json_array (map json_object patch_literal)).

(** No response of this file sets the UID.  Every statement after the
    return with the fixed patch is unreachable, and the lines that would add
    the aliases to the Pod are commented out. *)
Definition mutatePods `{Library} (req : AdmissionReview) : Go AdmissionResponse :=
  do request <- deref (Request req);
  let '(pod, err) := json_Unmarshal (Object_Raw request) in
  match err with
  | Some err =>
      ret {| UID := EmptyString; Allowed := false;
             Result := Some {| Code := 0; Message := err |};
             Patch := None; PatchType := None; Warnings := None |}
  | None =>
      if negb (isWatching pod)
      then ret {| UID := EmptyString; Allowed := true;
                  Result := Some {| Code := 0; Message := "Pod is not watching" |};
                  Patch := None; PatchType := None; Warnings := None |}
      else
        do found <- getHostAliasesFromServices;
        match found with
        | Err err =>
            ret {| UID := EmptyString; Allowed := false; Result := None;
                   Patch := None; PatchType := None;
                   Warnings := Some ["Failed to get host aliases: " +:+ err] |}
        | Ok hostAliases =>
            if Nat.eqb (len hostAliases) 0
            then ret {| UID := EmptyString; Allowed := true;
                        Result := Some {| Code := 0; Message := "No host aliases found" |};
                        Patch := None; PatchType := None; Warnings := None |}
            else
              ret {| UID := EmptyString; Allowed := true; Result := None;
                     Patch := Some marshal_literal;
                     PatchType := Some PatchTypeJSONPatch;
                     Warnings := None |}
        end
  end.

End MainGo.

(** ** A fake of the libraries *)

(** Stand-ins for the decoder, the encoder, the differ and the cluster,
    small enough to run the two versions on concrete requests. *)
Module Fake.

Definition schema : PodSchema := {| PodRest := string; zeroRest := EmptyString |}.

Definition labelled_pod : @Pod schema :=
  @Build_Pod schema (Some {[ "k8s-app" := "x" ]}) None "web".

Definition plain_pod : @Pod schema :=
  @Build_Pod schema None None "web".

(** Three documents decode; [mistyped] fills the labels and then fails on a
    later field; anything else is no JSON at all. *)
Definition unmarshal (raw : bytes) : @Pod schema * option error :=
  let doc := String.string_of_list_byte raw in
  if String.eqb doc "labelled" then (labelled_pod, None)
  else if String.eqb doc "plain" then (plain_pod, None)
  else if String.eqb doc "mistyped"
       then (labelled_pod, Some "json: cannot unmarshal number into Go struct field")
  else (@zeroPod schema, Some "invalid character 'x' looking for beginning of value").

Definition render_alias (h : HostAlias) : string :=
  " " +:+ IP h +:+ "=" +:+ String.concat "," (Hostnames h).

Definition marshal (pod : @Pod schema) : result bytes :=
  Ok (bytes_of (@rest schema pod
                +:+ String.concat EmptyString
                      (map render_alias (elems (@Spec_HostAliases schema pod))))).

(** Equal documents need no operation; otherwise one operation replaces the
    whole document. *)
Definition createPatch (a b : bytes) : result (list (string * string * string)) :=
  if String.eqb (String.string_of_list_byte a) (String.string_of_list_byte b) then Ok []
  else Ok [("replace", EmptyString, String.string_of_list_byte b)].

(** An operation is written as one JSON object. *)
Definition marshalJSON (o : string * string * string) : result bytes :=
  Ok (bytes_of (json_object [("op", o.1.1); ("path", o.1.2); ("value", o.2)])).

Definition library (cluster : result string) (directory : result (list Service))
  : @Library schema :=
  {| Operation := string * string * string;
     Config := string;
     Clientset := string;
     json_Unmarshal := unmarshal;
     json_Marshal := marshal;
     CreatePatch := createPatch;
     MarshalJSON := marshalJSON;
     InClusterConfig := cluster;
     Getenv_KUBECONFIG := EmptyString;
     RecommendedHomeFile := "~/.kube/config";
     BuildConfigFromFlags := fun _ _ => cluster;
     NewForConfig := fun config => Ok config;
     Services_List := fun _ => directory |}.

Definition db : Service :=
  {| GetName := "db"; GetNamespace := "prod";
     Spec_Type := "ClusterIP"; Spec_ClusterIP := "10.0.0.5" |}.

Definition headless : Service :=
  {| GetName := "peers"; GetNamespace := "prod";
     Spec_Type := "ClusterIP"; Spec_ClusterIP := "None" |}.

Definition gateway : Service :=
  {| GetName := "gw"; GetNamespace := "edge";
     Spec_Type := "LoadBalancer"; Spec_ClusterIP := "10.0.0.9" |}.

Definition review (uid doc : string) : AdmissionReview :=
  {| Request := Some {| req_UID := uid; Object_Raw := bytes_of doc |} |}.

(** A cluster that answers, and one whose listing call fails. *)
Definition up (items : list Service) : @Library schema :=
  library (Ok "in-cluster") (Ok items).

Definition down : @Library schema :=
  library (Ok "in-cluster") (Err "dial tcp 10.96.0.1:443: i/o timeout").

Definition refactored (L : @Library schema) (req : AdmissionReview)
  : outcome AdmissionResponse :=
  (@Refactored.mutatePods schema L req (@start schema L)).1.

Definition main_go (L : @Library schema) (req : AdmissionReview)
  : outcome AdmissionResponse :=
  (@MainGo.mutatePods schema L req (@start schema L)).1.

End Fake.

(** ** The handler *)

(** What [handleMutatePod] does to its [http.ResponseWriter], call by
    call.  The log lines are not part of the model. *)
Variant call :=
  | http_Error (msg : string) (code : Z)
  | w_Write (b : bytes).

(** The transport side of the libraries.  [ReviewRest] stands for the
    fields of the review and of its request that the engine does not read
    (the type meta, the kind, the operation, the user, ...).  [json_Decode]
    is what [json.NewDecoder(r.Body).Decode] leaves in a fresh review:
    those fields, the request and the response the body may hold.
    [json_Encode] is the JSON text of a review, [w_Write_err] the error of
    [w.Write], if it has one. *)
Class Transport := {
  ReviewRest : Type;
  json_Decode : bytes -> result (ReviewRest * AdmissionReview * option AdmissionResponse);
  json_Encode : ReviewRest -> AdmissionReview -> option AdmissionResponse -> result bytes;
  w_Write_err : bytes -> option error
}.

(** [handleMutatePod], the same text in both files, over the [mutatePods]
    of the file.  [Encode] writes the JSON text followed by a newline, in
    one call of [w.Write]; it fails when the review does not encode or the
    write fails. *)
Definition handleMutatePod {S : PodSchema} {L : Library} {T : Transport}
    (mutatePods : AdmissionReview -> Go AdmissionResponse) (body : bytes)
  : Go (list call) :=
  match json_Decode body with
  | Err _ => ret [http_Error "could not decode request body" StatusBadRequest]
  | Ok (other, admissionReview, _) =>
      do admissionResponse <- mutatePods admissionReview;
      match json_Encode other admissionReview (Some admissionResponse) with
      | Err _ => ret [http_Error "could not encode response" StatusInternalServerError]
      | Ok b =>
          match w_Write_err (b ++ [x0a]) with
          | None => ret [w_Write (b ++ [x0a])]
          | Some _ =>
              ret [w_Write (b ++ [x0a]);
                   http_Error "could not encode response" StatusInternalServerError]
          end
      end
  end.

(** A fake of the transport: three bodies decode, the third to a review
    without a request. *)
Module FakeHTTP.

Definition decode (body : bytes)
  : result (string * AdmissionReview * option AdmissionResponse) :=
  let text := String.string_of_list_byte body in
  if String.eqb text "review labelled"
  then Ok ("admission.k8s.io/v1", Fake.review "u1" "labelled", None)
  else if String.eqb text "review plain"
  then Ok ("admission.k8s.io/v1", Fake.review "u2" "plain", None)
  else if String.eqb text "review without request"
  then Ok ("admission.k8s.io/v1", {| Request := None |}, None)
  else Err "unexpected end of JSON input".

Definition encode (other : string) (review : AdmissionReview)
    (response : option AdmissionResponse) : result bytes :=
  Ok (bytes_of
        (other +:+ " uid="
         +:+ match response with Some r => UID r | None => EmptyString end
         +:+ " allowed="
         +:+ match response with
             | Some r => if Allowed r then "true" else "false"
             | None => EmptyString
             end)).

Definition transport : Transport :=
  {| ReviewRest := string;
     json_Decode := decode;
     json_Encode := encode;
     w_Write_err := fun _ => None |}.

Definition refactored (L : @Library Fake.schema) (body : string) : outcome (list call) :=
  (@handleMutatePod Fake.schema L transport Refactored.mutatePods
     (bytes_of body) (@start Fake.schema L)).1.

Definition main_go (L : @Library Fake.schema) (body : string) : outcome (list call) :=
  (@handleMutatePod Fake.schema L transport MainGo.mutatePods
     (bytes_of body) (@start Fake.schema L)).1.

End FakeHTTP.

(** A fake whose encoders can fail: the differ answers [operations]
    whatever the documents, an operation named [test] does not encode, and
    the Pod encodes to [encoded]. *)
Module Faulty.

Definition marshalJSON (o : string * string * string) : result bytes :=
  if String.eqb o.1.1 "test" then Err "json: unsupported value"
  else Fake.marshalJSON o.

Definition library (encoded : result bytes)
    (operations : result (list (string * string * string)))
  : @Library Fake.schema :=
  {| Operation := string * string * string;
     Config := string;
     Clientset := string;
     json_Unmarshal := Fake.unmarshal;
     json_Marshal := fun _ => encoded;
     CreatePatch := fun _ _ => operations;
     MarshalJSON := marshalJSON;
     InClusterConfig := Ok "in-cluster";
     Getenv_KUBECONFIG := EmptyString;
     RecommendedHomeFile := "~/.kube/config";
     BuildConfigFromFlags := fun _ path => Ok path;
     NewForConfig := fun config => Ok config;
     Services_List := fun _ => Ok [Fake.db] |}.

End Faulty.

(** ** The vocabulary of the statements *)

(** The keys of the label mapping; a nil mapping has none. *)
Definition label_keys `{PodSchema} (pod : Pod) : gset string :=
  dom (default ∅ (Labels pod)).

(** A Service of type ClusterIP with a concrete address. *)
Definition qualifies (s : Service) : bool :=
  bool_decide (Spec_Type s = "ClusterIP"
               ∧ Spec_ClusterIP s ≠ EmptyString
               ∧ Spec_ClusterIP s ≠ "None").

Definition three_names (name namespace : string) : list string :=
  [ name +:+ "." +:+ namespace +:+ ".svc.cluster.local";
    name +:+ "." +:+ namespace +:+ ".svc";
    name +:+ "." +:+ namespace ].

(** What one Service adds to the aliases: one alias, or none. *)
Definition contribution (s : Service) : list HostAlias :=
  if qualifies s
  then [ {| IP := Spec_ClusterIP s;
            Hostnames := three_names (GetName s) (GetNamespace s) |} ]
  else [].

Definition derived (items : list Service) : list HostAlias :=
  flat_map contribution items.

(** The two disciplines for a directory that cannot be read. *)
Definition fail_open (r : AdmissionResponse) : Prop :=
  Allowed r = true ∧ carries_warnings r = true ∧ carries_patch r = false.

Definition fail_closed (r : AdmissionResponse) : Prop :=
  Allowed r = false ∧ ∃ st, Result r = Some st ∧ Message st ≠ EmptyString.

(** The states a process can be in: it starts with the client not yet
    built, and serves requests with [handler] one after the other. *)
Inductive reachable {S : PodSchema} {L : Library}
    (handler : AdmissionReview → Go AdmissionResponse) : Process → Prop :=
  | reachable_start : reachable handler start
  | reachable_served (p : Process) (req : AdmissionReview) :
      reachable handler p → reachable handler (handler req p).2.

(** Two runs agree: the same response, or a panic in both. *)
Definition agree {A} (o1 o2 : outcome A) : Prop :=
  match o1, o2 with
  | Returns a1, Returns a2 => a1 = a2
  | Panics _, Panics _ => True
  | _, _ => False
  end.

(** What holds of the two package variables in every state of the process:
    either the client was never asked for, or [_cli] is what building the
    client gives, nil when that failed. *)
Definition settled {S : PodSchema} {L : Library} (p : Process) : Prop :=
  (initClient_done p = false ∧ _cli p = None)
  ∨ (initClient_done p = true
     ∧ _cli p = match newClient with Ok c => Some c | Err _ => None end).



(** The bytes of an operation that encodes. *)
Definition encoded {S : PodSchema} {L : Library} (o : Operation) : bytes :=
  match MarshalJSON o with
  | Ok b => b
  | Err _ => []
  end.




(** * Properties *)

(** ** Slices *)

Lemma len_nil_elems {A} (s : slice A) : len s = 0 ↔ elems s = [].
Proof. unfold len. destruct (elems s); simpl; split; congruence. Qed.

(** ** Eligibility *)

Lemma isWatching_keys `{PodSchema} (pod : Pod) :
  isWatching pod = bool_decide (watchingLabelKey ∈ label_keys pod).
Proof.
  unfold isWatching, label_keys, map_index.
  destruct (Labels pod) as [m|]; simpl.
  - destruct (m !! watchingLabelKey) as [v|] eqn:Hv; simpl; symmetry.
    + apply bool_decide_eq_true. apply elem_of_dom. eauto.
    + apply bool_decide_eq_false. by apply not_elem_of_dom.
  - symmetry. apply bool_decide_eq_false. set_solver.
Qed.

Lemma isWatching_nil `{PodSchema} (pod : Pod) : Labels pod = None → isWatching pod = false.
Proof. unfold isWatching, map_index. by intros ->. Qed.

Lemma isWatching_empty `{PodSchema} (pod : Pod) : Labels pod = Some ∅ → isWatching pod = false.
Proof. unfold isWatching, map_index. intros ->. by rewrite lookup_empty. Qed.

(** ** The loop over the Services *)

Lemma hostAliases_step_contribution (acc : list HostAlias) (s : Service) :
  hostAliases_step (Some acc) s = Some (acc ++ contribution s).
Proof.
  unfold hostAliases_step, contribution, qualifies, ServiceTypeClusterIP, three_names,
    domain1, domain2, domain3.
  destruct (String.eqb_spec (Spec_Type s) "ClusterIP") as [Ht|Ht]; simpl.
  - destruct (String.eqb_spec (Spec_ClusterIP s) EmptyString) as [He|He]; simpl.
    + rewrite bool_decide_eq_false_2 by tauto. by rewrite app_nil_r.
    + destruct (String.eqb_spec (Spec_ClusterIP s) "None") as [Hn|Hn]; simpl.
      * rewrite bool_decide_eq_false_2 by tauto. by rewrite app_nil_r.
      * by rewrite bool_decide_eq_true_2.
  - rewrite bool_decide_eq_false_2 by tauto. by rewrite app_nil_r.
Qed.

Lemma hostAliases_loop (items : list Service) (acc : list HostAlias) :
  fold_left hostAliases_step items (Some acc) = Some (acc ++ derived items).
Proof.
  revert acc. induction items as [|s items IH]; intros acc; simpl.
  - by rewrite app_nil_r.
  - rewrite hostAliases_step_contribution, IH. by rewrite <- app_assoc.
Qed.

Lemma hostAliases_of_items_derived (items : list Service) :
  elems (hostAliases_of_items items) = derived items.
Proof.
  unfold hostAliases_of_items. destruct items as [|s items]; [reflexivity|].
  change (Nat.eqb (length (s :: items)) 0) with false. cbv iota.
  unfold make. by rewrite hostAliases_loop.
Qed.

Lemma derived_length (items : list Service) :
  length (derived items) = length (filter (λ s, qualifies s = true) items).
Proof.
  induction items as [|s items IH]; [reflexivity|].
  unfold derived in *. simpl. rewrite length_app, IH.
  rewrite filter_cons. unfold contribution.
  destruct (qualifies s) eqn:Hq; case_decide; simpl; congruence.
Qed.

(** ** The listing call *)

Lemma getHostAliasesFromServices_listed {S : PodSchema} {L : Library}
    (p : Process) (c : Clientset) (items : list Service) :
  (client p).1 = Returns (Some c) →
  Services_List c = Ok items →
  getHostAliasesFromServices p = (Returns (Ok (hostAliases_of_items items)), (client p).2).
Proof.
  intros Hc Hl. unfold getHostAliasesFromServices, bind.
  destruct (client p) as [[handle|msg] p']; simpl in *; [|discriminate].
  injection Hc as ->. simpl. unfold ret. by rewrite Hl.
Qed.

Lemma getHostAliasesFromServices_failed {S : PodSchema} {L : Library}
    (p : Process) (c : Clientset) (err : error) :
  (client p).1 = Returns (Some c) →
  Services_List c = Err err →
  getHostAliasesFromServices p = (Returns (Err err), (client p).2).
Proof.
  intros Hc Hl. unfold getHostAliasesFromServices, bind.
  destruct (client p) as [[handle|msg] p']; simpl in *; [|discriminate].
  injection Hc as ->. simpl. unfold ret. by rewrite Hl.
Qed.

(** C4: when the directory answers with [items], the aliases returned are,
    in the order of the listing, one alias for every Service of type
    ClusterIP whose clusterIP is neither empty nor [None], with the three
    hostnames name.namespace.svc.cluster.local, name.namespace.svc and
    name.namespace, and nothing for any other Service. *)
Theorem getHostAliasesFromServices_derived {S : PodSchema} {L : Library}
    (p : Process) (c : Clientset) (items : list Service) :
  (client p).1 = Returns (Some c) →
  Services_List c = Ok items →
  ∃ hostAliases,
    (getHostAliasesFromServices p).1 = Returns (Ok hostAliases)
    ∧ elems hostAliases
      = flat_map
          (λ s, if qualifies s
                then [ {| IP := Spec_ClusterIP s;
                          Hostnames :=
                            [ GetName s +:+ "." +:+ GetNamespace s +:+ ".svc.cluster.local";
                              GetName s +:+ "." +:+ GetNamespace s +:+ ".svc";
                              GetName s +:+ "." +:+ GetNamespace s ] |} ]
                else [])
          items
    ∧ length (elems hostAliases) = length (filter (λ s, qualifies s = true) items).
Proof.
  intros Hc Hl. exists (hostAliases_of_items items).
  rewrite (getHostAliasesFromServices_listed p c items Hc Hl).
  split; [reflexivity|]. rewrite hostAliases_of_items_derived.
  split; [reflexivity|]. apply derived_length.
Qed.

Lemma getHostAliasesFromServices_derived_witness :
  ∃ hostAliases,
    (@getHostAliasesFromServices Fake.schema
       (Fake.up [Fake.db; Fake.headless; Fake.gateway]) start).1
    = Returns (Ok hostAliases)
    ∧ elems hostAliases
      = [ {| IP := "10.0.0.5";
             Hostnames := ["db.prod.svc.cluster.local"; "db.prod.svc"; "db.prod"] |} ]
    ∧ length (elems hostAliases) = 1.
Proof.
  destruct (@getHostAliasesFromServices_derived Fake.schema
              (Fake.up [Fake.db; Fake.headless; Fake.gateway]) start "in-cluster"
              [Fake.db; Fake.headless; Fake.gateway])
    as (hostAliases & Hrun & Helems & Hlen); [reflexivity | reflexivity |].
  exists hostAliases. split; [exact Hrun|]. split.
  - rewrite Helems. reflexivity.
  - rewrite Hlen. reflexivity.
Defined.

(** ** A Pod without the marker label *)

Lemma Refactored_not_watching {S : PodSchema} {L : Library}
    (req : AdmissionReview) (request : AdmissionRequest) (p : Process) :
  Request req = Some request →
  isWatching (json_Unmarshal (Object_Raw request)).1 = false →
  Refactored.mutatePods req p
  = (Returns (Refactored.responseAllowed (req_UID request) "Pod is not watching"), p).
Proof.
  intros Hr Hw. unfold Refactored.mutatePods, bind. rewrite Hr. simpl.
  destruct (json_Unmarshal (Object_Raw request)) as [pod err]. simpl in Hw.
  by rewrite Hw.
Qed.

Lemma MainGo_not_watching {S : PodSchema} {L : Library}
    (req : AdmissionReview) (request : AdmissionRequest) (pod : Pod) (p : Process) :
  Request req = Some request →
  json_Unmarshal (Object_Raw request) = (pod, None) →
  isWatching pod = false →
  MainGo.mutatePods req p
  = (Returns {| UID := EmptyString; Allowed := true;
                Result := Some {| Code := 0; Message := "Pod is not watching" |};
                Patch := None; PatchType := None; Warnings := None |}, p).
Proof.
  intros Hr Hd Hw. unfold MainGo.mutatePods, bind. rewrite Hr. simpl.
  by rewrite Hd, Hw.
Qed.

(** C3: a Pod whose labels do not hold the key [k8s-app] (a nil or an empty
    mapping among them) is answered allowed, without patch and without
    patch type, by both versions, and the process is left as it was.
    Eligibility is the presence of the key: any Pod is eligible exactly
    when the key is among its label keys, so two Pods with the same keys
    are treated alike, and a Pod that has the key is eligible whatever the
    value. *)
Theorem unlabelled_pod_allowed_unchanged {S : PodSchema} {L : Library}
    (req : AdmissionReview) (request : AdmissionRequest)
    (pod : Pod) (err : option error) (p : Process) :
  Request req = Some request →
  json_Unmarshal (Object_Raw request) = (pod, err) →
  watchingLabelKey ∉ label_keys pod →
  (∃ r, Refactored.mutatePods req p = (Returns r, p)
        ∧ UID r = req_UID request
        ∧ Allowed r = true ∧ Patch r = None ∧ PatchType r = None)
  ∧ (err = None →
     ∃ r, MainGo.mutatePods req p = (Returns r, p)
          ∧ Allowed r = true ∧ Patch r = None ∧ PatchType r = None)
  ∧ (∀ pod' : Pod, isWatching pod' = true ↔ watchingLabelKey ∈ label_keys pod')
  ∧ (∀ pod1 pod2 : Pod,
       label_keys pod1 = label_keys pod2 → isWatching pod1 = isWatching pod2)
  ∧ (∀ (m : gmap string string) (v : string) (h : slice HostAlias) (r : PodRest),
       isWatching {| Labels := Some (<[watchingLabelKey := v]> m);
                     Spec_HostAliases := h; rest := r |} = true)
  ∧ (Labels pod = None ∨ Labels pod = Some ∅ → isWatching pod = false).
Proof.
  intros Hr Hd Hk.
  assert (Hw : isWatching pod = false).
  { rewrite isWatching_keys. by apply bool_decide_eq_false. }
  split; [|split; [|split; [|split; [|split]]]].
  - eexists. split; [apply (Refactored_not_watching req request p Hr)|].
    + by rewrite Hd.
    + by simpl.
  - intros ->. eexists. split; [apply (MainGo_not_watching req request pod p Hr Hd Hw)|].
    by simpl.
  - intros pod'. rewrite isWatching_keys. apply bool_decide_eq_true.
  - intros pod1 pod2 Hk'. by rewrite !isWatching_keys, Hk'.
  - intros m v h r. rewrite isWatching_keys. apply bool_decide_eq_true.
    unfold label_keys. simpl. apply elem_of_dom. rewrite lookup_insert_eq. by eexists.
  - intros [Hn|He]; [by apply isWatching_nil | by apply isWatching_empty].
Qed.

Lemma unlabelled_pod_allowed_unchanged_witness :
  (∃ r, Fake.refactored (Fake.up [Fake.db]) (Fake.review "u1" "plain") = Returns r
        ∧ UID r = "u1" ∧ Allowed r = true ∧ Patch r = None ∧ PatchType r = None)
  ∧ isWatching Fake.plain_pod = false
  ∧ isWatching Fake.labelled_pod = true.
Proof.
  destruct (@unlabelled_pod_allowed_unchanged Fake.schema (Fake.up [Fake.db])
              (Fake.review "u1" "plain")
              {| req_UID := "u1"; Object_Raw := bytes_of "plain" |}
              Fake.plain_pod None start)
    as ([r [Hrun Hr]] & _ & Hiff & _ & _ & Hnil).
  - reflexivity.
  - reflexivity.
  - unfold label_keys. simpl. set_solver.
  - split; [|split].
    + exists r. split; [|exact Hr]. unfold Fake.refactored. by rewrite Hrun.
    + apply Hnil. by left.
    + apply Hiff. unfold label_keys. simpl. set_solver.
Defined.

(** ** The shapes of the responses *)

Lemma marshalPatches_cases {S : PodSchema} {L : Library}
    (uid : string) (patches : list Operation) (acc : bytes) :
  match Refactored.marshalPatches uid patches (Some acc) with
  | inl r => ∃ err, r = Refactored.responseErrored uid StatusInternalServerError err
  | inr patchBytes =>
      ∃ bs, Forall2 (λ o b, MarshalJSON o = Ok b) patches bs
            ∧ patchBytes = Some (acc ++ concat bs)
  end.
Proof.
  revert acc. induction patches as [|o patches IH]; intros acc; simpl.
  - exists []. split; [constructor|]. by rewrite app_nil_r.
  - destruct (MarshalJSON o) as [b|err] eqn:Ho; [|by eexists].
    specialize (IH (acc ++ b)). simpl.
    destruct (Refactored.marshalPatches uid patches (Some (acc ++ b))) as [r|pb]; [exact IH|].
    destruct IH as (bs & Hbs & ->). exists (b :: bs). split; [by constructor|].
    simpl. by rewrite app_assoc.
Qed.

(** The response of [patchResponseFromRaw] is an error response with code
    500, or carries the encodings of the operations, one after the other. *)
Lemma patchResponseFromRaw_cases {S : PodSchema} {L : Library}
    (uid : string) (original current : bytes) :
  (∃ err, Refactored.patchResponseFromRaw uid original current
          = Refactored.responseErrored uid StatusInternalServerError err)
  ∨ (∃ patches bs,
       CreatePatch original current = Ok patches
       ∧ Forall2 (λ o b, MarshalJSON o = Ok b) patches bs
       ∧ Refactored.patchResponseFromRaw uid original current
         = {| UID := uid; Allowed := true; Result := None;
              Patch := Some (concat bs);
              PatchType := if Nat.eqb (length patches) 0 then None
                           else Some PatchTypeJSONPatch;
              Warnings := None |}).
Proof.
  unfold Refactored.patchResponseFromRaw.
  destruct (CreatePatch original current) as [patches|err]; [|left; by eexists].
  pose proof (marshalPatches_cases uid patches []) as Hm. unfold make.
  destruct (Refactored.marshalPatches uid patches (Some [])) as [r|pb].
  - left. exact Hm.
  - right. destruct Hm as (bs & Hbs & ->). by exists patches, bs.
Qed.

(** Every response of the refactored [mutatePods] is built by one of its
    three constructors, with the UID of the request. *)
Lemma Refactored_mutatePods_cases {S : PodSchema} {L : Library}
    (P : AdmissionResponse → Prop) (req : AdmissionReview)
    (request : AdmissionRequest) (p p' : Process) (r : AdmissionResponse) :
  (∀ err, P (Refactored.responseErrored (req_UID request) StatusInternalServerError err)) →
  (∀ msg, P (Refactored.responseAllowed (req_UID request) msg)) →
  (∀ resp, P (Refactored.patchResponseFromRaw (req_UID request) (Object_Raw request) resp)) →
  Request req = Some request →
  Refactored.mutatePods req p = (Returns r, p') →
  P r.
Proof.
  intros He Ha Hp Hr Hrun.
  unfold Refactored.mutatePods, bind in Hrun. rewrite Hr in Hrun. simpl in Hrun.
  destruct (json_Unmarshal (Object_Raw request)) as [pod err].
  destruct (isWatching pod); simpl in Hrun.
  - destruct (getHostAliasesFromServices p) as [[[hostAliases|err']|msg] p1];
      [| |discriminate].
    + destruct (Nat.eqb (len hostAliases) 0).
      * injection Hrun as <- _. apply Ha.
      * destruct (json_Marshal _) as [resp|err']; injection Hrun as <- _;
          [apply Hp | apply He].
    + injection Hrun as <- _. apply He.
  - injection Hrun as <- _. apply Ha.
Qed.

Lemma patchResponseFromRaw_uid {S : PodSchema} {L : Library}
    (uid : string) (original current : bytes) :
  UID (Refactored.patchResponseFromRaw uid original current) = uid.
Proof.
  destruct (patchResponseFromRaw_cases uid original current)
    as [[err ->]|(patches & bs & _ & _ & ->)]; reflexivity.
Qed.

(** X18: the refactored file echoes the UID on every path: whatever the
    Pod, the directory and the encoders do, a response that is returned has
    the UID of the request. *)
Lemma Refactored_uid {S : PodSchema} {L : Library}
    (req : AdmissionReview) (request : AdmissionRequest)
    (p p' : Process) (r : AdmissionResponse) :
  Request req = Some request →
  Refactored.mutatePods req p = (Returns r, p') →
  UID r = req_UID request.
Proof.
  apply (Refactored_mutatePods_cases (λ r, UID r = req_UID request)); try reflexivity.
  intros resp. apply patchResponseFromRaw_uid.
Qed.

(** [main.go] sets the UID on no path. *)
Lemma MainGo_uid {S : PodSchema} {L : Library}
    (req : AdmissionReview) (p p' : Process) (r : AdmissionResponse) :
  MainGo.mutatePods req p = (Returns r, p') →
  UID r = EmptyString.
Proof.
  unfold MainGo.mutatePods, bind, deref. intros Hrun.
  destruct (Request req) as [request|]; simpl in Hrun; [|discriminate].
  destruct (json_Unmarshal (Object_Raw request)) as [pod [err|]].
  { by injection Hrun as <- _. }
  destruct (isWatching pod); simpl in Hrun; [|by injection Hrun as <- _].
  destruct (getHostAliasesFromServices p) as [[[hostAliases|err']|msg] p1];
    [| |discriminate].
  - destruct (Nat.eqb (len hostAliases) 0); by injection Hrun as <- _.
  - by injection Hrun as <- _.
Qed.

(** C1: [main.go] builds every response without the UID field, so the
    response to a request with a UID does not carry it. *)
Theorem MainGo_loses_uid {S : PodSchema} {L : Library}
    (req : AdmissionReview) (request : AdmissionRequest)
    (p p' : Process) (r : AdmissionResponse) :
  Request req = Some request →
  req_UID request ≠ EmptyString →
  MainGo.mutatePods req p = (Returns r, p') →
  UID r = EmptyString ∧ UID r ≠ req_UID request.
Proof.
  intros _ Hne Hrun. rewrite (MainGo_uid req p p' r Hrun). split; congruence.
Qed.

Lemma MainGo_loses_uid_witness :
  ∃ r, Fake.main_go (Fake.up [Fake.db]) (Fake.review "u1" "labelled") = Returns r
       ∧ Allowed r = true ∧ carries_patch r = true
       ∧ UID r = EmptyString ∧ UID r ≠ "u1".
Proof.
  eexists. split; [reflexivity|]. split; [reflexivity|]. split; [reflexivity|].
  apply (@MainGo_loses_uid Fake.schema (Fake.up [Fake.db])
           (Fake.review "u1" "labelled")
           {| req_UID := "u1"; Object_Raw := bytes_of "labelled" |}
           start (@Build_Process Fake.schema (Fake.up [Fake.db]) true (Some "in-cluster")));
    [reflexivity | discriminate | reflexivity].
Defined.

(** ** A request that does not decode *)

(** No response of the refactored file has a status code other than 0
    and 500. *)
Lemma Refactored_codes {S : PodSchema} {L : Library}
    (req : AdmissionReview) (request : AdmissionRequest)
    (p p' : Process) (r : AdmissionResponse) (st : Status) :
  Request req = Some request →
  Refactored.mutatePods req p = (Returns r, p') →
  Result r = Some st →
  Code st = 0%Z ∨ Code st = StatusInternalServerError.
Proof.
  intros Hr Hrun. revert st.
  apply (Refactored_mutatePods_cases
           (λ r, ∀ st, Result r = Some st → Code st = 0%Z ∨ Code st = StatusInternalServerError)
           req request p p' r); [| | |exact Hr|exact Hrun].
  - intros err st [= <-]. by right.
  - intros msg st [= <-]. by left.
  - intros resp st.
    destruct (patchResponseFromRaw_cases (req_UID request) (Object_Raw request) resp)
      as [[err ->]|(patches & bs & _ & _ & ->)]; simpl; [|discriminate].
    intros [= <-]. by right.
Qed.

(** C2: in the refactored file the response built for a decoding error is
    dropped.  When decoding fails, no response has the code 400, and when
    the Pod the decoder left has no marker label the request is allowed. *)
Theorem Refactored_decode_failure_not_denied {S : PodSchema} {L : Library}
    (req : AdmissionReview) (request : AdmissionRequest)
    (pod : Pod) (err : error) (p : Process) :
  Request req = Some request →
  json_Unmarshal (Object_Raw request) = (pod, Some err) →
  (isWatching pod = false →
   Refactored.mutatePods req p
   = (Returns (Refactored.responseAllowed (req_UID request) "Pod is not watching"), p))
  ∧ (∀ r p' st, Refactored.mutatePods req p = (Returns r, p') →
                Result r = Some st → Code st ≠ StatusBadRequest).
Proof.
  intros Hr Hd. split.
  - intros Hw. apply Refactored_not_watching; [exact Hr|]. by rewrite Hd.
  - intros r p' st Hrun Hst.
    destruct (Refactored_codes req request p p' r st Hr Hrun Hst) as [-> | ->];
      discriminate.
Qed.

Lemma Refactored_decode_failure_not_denied_witness :
  Fake.refactored (Fake.up [Fake.db]) (Fake.review "u1" "garbage")
  = Returns {| UID := "u1"; Allowed := true;
               Result := Some {| Code := 0; Message := "Pod is not watching" |};
               Patch := None; PatchType := None; Warnings := None |}.
Proof.
  unfold Fake.refactored.
  rewrite (proj1 (@Refactored_decode_failure_not_denied Fake.schema (Fake.up [Fake.db])
             (Fake.review "u1" "garbage")
             {| req_UID := "u1"; Object_Raw := bytes_of "garbage" |}
             (@zeroPod Fake.schema)
             "invalid character 'x' looking for beginning of value"
             start eq_refl eq_refl) eq_refl).
  reflexivity.
Defined.

(** X19: in [main.go] a decoding error ends the request at once, whatever
    the decoder left in the Pod: the response is a denial whose status has
    the message of the decoder and no code, and the process is untouched,
    so the directory is not asked. *)
Lemma MainGo_decode_failure {S : PodSchema} {L : Library}
    (req : AdmissionReview) (request : AdmissionRequest)
    (pod : Pod) (err : error) (p : Process) :
  Request req = Some request →
  json_Unmarshal (Object_Raw request) = (pod, Some err) →
  MainGo.mutatePods req p
  = (Returns {| UID := EmptyString; Allowed := false;
                Result := Some {| Code := 0; Message := err |};
                Patch := None; PatchType := None; Warnings := None |}, p).
Proof.
  intros Hr Hd. unfold MainGo.mutatePods, bind. rewrite Hr. simpl. by rewrite Hd.
Qed.

(** A decoder that fails after it has filled the labels lets the refactored
    file go on to the mutation. *)
Example Refactored_mistyped_is_patched :
  ∃ r, Fake.refactored (Fake.up [Fake.db]) (Fake.review "u1" "mistyped") = Returns r
       ∧ Allowed r = true ∧ carries_patch r = true.
Proof. eexists. split; [reflexivity|]. split; reflexivity. Qed.

(** ** The mutation *)

Lemma addHostAliases_loop {S : PodSchema} (hostAliases : list HostAlias) (pod : Pod)
    (present : list HostAlias) :
  Spec_HostAliases pod = Some present →
  fold_left
    (λ pod hostAlias, with_HostAliases pod (append (Spec_HostAliases pod) hostAlias))
    hostAliases pod
  = with_HostAliases pod (Some (present ++ hostAliases)).
Proof.
  revert pod present. induction hostAliases as [|h hostAliases IH]; intros pod present Hp; simpl.
  - rewrite app_nil_r, <- Hp. by destruct pod.
  - rewrite (IH _ (present ++ [h])); [|by rewrite Hp].
    unfold with_HostAliases. simpl. by rewrite <- app_assoc.
Qed.

(** The aliases are added behind those the Pod has, all of them, in their
    order; the labels and the rest of the Pod stay. *)
Lemma addHostAliases_appends {S : PodSchema} {L : Library}
    (pod : Pod) (hostAliases : slice HostAlias) :
  Refactored.addHostAliases pod hostAliases
  = with_HostAliases pod (Some (elems (Spec_HostAliases pod) ++ elems hostAliases)).
Proof.
  unfold Refactored.addHostAliases.
  destruct (Spec_HostAliases pod) as [present|] eqn:Hp.
  - by rewrite (addHostAliases_loop _ pod present Hp).
  - by rewrite (addHostAliases_loop _ (with_HostAliases pod make) [] eq_refl).
Qed.

(** The refactored file, for an eligible Pod and a directory with a
    qualifying Service: the Pod with the aliases appended is encoded and the
    response is that of [patchResponseFromRaw] on the two documents. *)
Lemma Refactored_patched {S : PodSchema} {L : Library}
    (req : AdmissionReview) (request : AdmissionRequest) (pod : Pod)
    (err : option error) (p : Process) (c : Clientset) (items : list Service) :
  Request req = Some request →
  json_Unmarshal (Object_Raw request) = (pod, err) →
  isWatching pod = true →
  (client p).1 = Returns (Some c) →
  Services_List c = Ok items →
  derived items ≠ [] →
  Refactored.mutatePods req p
  = (Returns
       match json_Marshal
               (with_HostAliases pod
                  (Some (elems (Spec_HostAliases pod) ++ derived items))) with
       | Ok resp =>
           Refactored.patchResponseFromRaw (req_UID request) (Object_Raw request) resp
       | Err err =>
           Refactored.responseErrored (req_UID request) StatusInternalServerError err
       end,
     (client p).2).
Proof.
  intros Hr Hd Hw Hc Hl Hne.
  unfold Refactored.mutatePods, bind. rewrite Hr. simpl. rewrite Hd, Hw. simpl.
  rewrite (getHostAliasesFromServices_listed p c items Hc Hl).
  destruct (Nat.eqb_spec (len (hostAliases_of_items items)) 0) as [H0|_].
  { apply len_nil_elems in H0. by rewrite hostAliases_of_items_derived in H0. }
  rewrite addHostAliases_appends, hostAliases_of_items_derived.
  by destruct (json_Marshal _).
Qed.

(** The scenario of the specification on the refactored file: the Pod that
    is encoded has the alias of [db.prod] behind the aliases it had. *)
Example Refactored_scenario (present : list HostAlias) :
  @Refactored.addHostAliases Fake.schema (Fake.up [Fake.db])
    (@with_HostAliases Fake.schema Fake.labelled_pod (Some present))
    (hostAliases_of_items [Fake.db])
  = @with_HostAliases Fake.schema Fake.labelled_pod
      (Some (present
             ++ [ {| IP := "10.0.0.5";
                     Hostnames := ["db.prod.svc.cluster.local"; "db.prod.svc"; "db.prod"] |} ])).
Proof. by rewrite addHostAliases_appends. Qed.

(** C5: [main.go] answers an eligible Pod, whatever qualifying Services the
    directory lists, with one fixed patch: the array with the single
    operation that adds the label [env] with the value [dev].  No alias is
    added to the Pod and none is in the patch. *)
Theorem MainGo_patch_is_fixed {S : PodSchema} {L : Library}
    (req : AdmissionReview) (request : AdmissionRequest) (pod : Pod)
    (p : Process) (c : Clientset) (items : list Service) :
  Request req = Some request →
  json_Unmarshal (Object_Raw request) = (pod, None) →
  isWatching pod = true →
  (client p).1 = Returns (Some c) →
  Services_List c = Ok items →
  derived items ≠ [] →
  MainGo.mutatePods req p
  = (Returns {| UID := EmptyString; Allowed := true; Result := None;
                Patch := Some (bytes_of
                  (json_array
                     [json_object [("op", "add");
                                   ("path", "/metadata/labels/env");
                                   ("value", "dev")]]));
                PatchType := Some PatchTypeJSONPatch;
                Warnings := None |},
     (client p).2).
Proof.
  intros Hr Hd Hw Hc Hl Hne.
  unfold MainGo.mutatePods, bind. rewrite Hr. simpl. rewrite Hd, Hw. simpl.
  rewrite (getHostAliasesFromServices_listed p c items Hc Hl).
  destruct (Nat.eqb_spec (len (hostAliases_of_items items)) 0) as [H0|_].
  { apply len_nil_elems in H0. by rewrite hostAliases_of_items_derived in H0. }
  reflexivity.
Qed.

Lemma MainGo_patch_is_fixed_witness :
  ∃ r, Fake.main_go (Fake.up [Fake.db]) (Fake.review "u1" "labelled") = Returns r
       ∧ Allowed r = true
       ∧ Patch r = Some (bytes_of
           (json_array
              [json_object [("op", "add"); ("path", "/metadata/labels/env");
                            ("value", "dev")]])).
Proof.
  eexists. unfold Fake.main_go.
  rewrite (@MainGo_patch_is_fixed Fake.schema (Fake.up [Fake.db])
             (Fake.review "u1" "labelled")
             {| req_UID := "u1"; Object_Raw := bytes_of "labelled" |}
             Fake.labelled_pod start "in-cluster" [Fake.db]);
    [|reflexivity|reflexivity|reflexivity|reflexivity|reflexivity|discriminate].
  simpl. split; [reflexivity|]. split; reflexivity.
Defined.

(** ** A directory that cannot be read *)

(** C6: when the listing call fails, [main.go] answers neither in the
    fail-open nor in the fail-closed shape: the response literal sets the
    warnings only, so the request is not allowed and there is no status. *)
Theorem MainGo_directory_failure_neither :
  ∃ r, Fake.main_go Fake.down (Fake.review "u1" "labelled") = Returns r
       ∧ ¬ (fail_open r ∨ fail_closed r).
Proof.
  eexists. split; [reflexivity|].
  intros [(Ha & _)|(_ & st & Hst & _)]; simpl in *; discriminate.
Qed.

(** X20: what the two versions do when the listing call fails: both refuse the
    request without a patch and show the text of the error, the refactored
    file in the message of a status with the code 500, which is the
    fail-closed shape, [main.go] in its one warning, without a status. *)
Lemma directory_failure_visible {S : PodSchema} {L : Library}
    (req : AdmissionReview) (request : AdmissionRequest) (pod : Pod)
    (derr : option error) (p : Process) (c : Clientset) (err : error) :
  Request req = Some request →
  json_Unmarshal (Object_Raw request) = (pod, derr) →
  isWatching pod = true →
  (client p).1 = Returns (Some c) →
  Services_List c = Err err →
  (∃ r, (Refactored.mutatePods req p).1 = Returns r
        ∧ fail_closed r
        ∧ carries_patch r = false
        ∧ Result r = Some {| Code := 500;
                             Message := "failed to get host aliases: " +:+ err |})
  ∧ (derr = None →
     ∃ r, (MainGo.mutatePods req p).1 = Returns r
          ∧ Allowed r = false
          ∧ carries_patch r = false
          ∧ Result r = None
          ∧ Warnings r = Some ["Failed to get host aliases: " +:+ err]).
Proof.
  intros Hr Hd Hw Hc Hl. split.
  - eexists. split.
    + unfold Refactored.mutatePods, bind. rewrite Hr. simpl. rewrite Hd, Hw. simpl.
      rewrite (getHostAliasesFromServices_failed p c err Hc Hl). reflexivity.
    + split; [|split; reflexivity].
      split; [reflexivity|]. eexists. split; [reflexivity|]. discriminate.
  - intros ->. eexists. split.
    + unfold MainGo.mutatePods, bind. rewrite Hr. simpl. rewrite Hd, Hw. simpl.
      rewrite (getHostAliasesFromServices_failed p c err Hc Hl). reflexivity.
    + by simpl.
Qed.

Example directory_failure_on_fake :
  (∃ r, Fake.refactored Fake.down (Fake.review "u1" "labelled") = Returns r
        ∧ fail_closed r
        ∧ carries_patch r = false
        ∧ Result r
          = Some {| Code := 500;
                    Message := "failed to get host aliases: dial tcp 10.96.0.1:443: i/o timeout" |})
  ∧ (∃ r, Fake.main_go Fake.down (Fake.review "u1" "labelled") = Returns r
          ∧ Allowed r = false
          ∧ carries_patch r = false
          ∧ Result r = None
          ∧ Warnings r
            = Some ["Failed to get host aliases: dial tcp 10.96.0.1:443: i/o timeout"]).
Proof.
  destruct (@directory_failure_visible Fake.schema Fake.down
              (Fake.review "u1" "labelled")
              {| req_UID := "u1"; Object_Raw := bytes_of "labelled" |}
              Fake.labelled_pod None start "in-cluster"
              "dial tcp 10.96.0.1:443: i/o timeout")
    as [Hrefactored Hmain]; try reflexivity.
  split; [exact Hrefactored | exact (Hmain eq_refl)].
Defined.

(** ** An empty difference *)




(** The same holds for any two documents between which the differ finds
    nothing. *)
Lemma no_operation_no_patch {S : PodSchema} {L : Library}
    (uid : string) (original current : bytes) :
  CreatePatch original current = Ok [] →
  carries_patch (Refactored.patchResponseFromRaw uid original current) = false
  ∧ PatchType (Refactored.patchResponseFromRaw uid original current) = None.
Proof.
  intros Hd. unfold Refactored.patchResponseFromRaw. rewrite Hd. by simpl.
Qed.

(** ** Patch, patch type, allowed *)

Lemma patchResponseFromRaw_invariant {S : PodSchema} {L : Library}
    (uid : string) (original current : bytes) :
  let r := Refactored.patchResponseFromRaw uid original current in
  (carries_patch r = true → carries_patchType r = true)
  ∧ (carries_patchType r = true → Allowed r = true).
Proof.
  destruct (patchResponseFromRaw_cases uid original current)
    as [[err ->]|(patches & bs & _ & Hbs & ->)]; simpl.
  - split; discriminate.
  - split; [|reflexivity]. unfold carries_patch, carries_patchType, len. simpl.
    destruct patches as [|o patches]; [|reflexivity].
    apply Forall2_nil_inv_l in Hbs as ->. discriminate.
Qed.





(** In memory the patch of an empty difference is an empty slice that is
    not nil, with a nil patch type; the encoder writes neither. *)
Example empty_patch_not_nil :
  let r := @Refactored.patchResponseFromRaw Fake.schema (Fake.up []) "u1"
             (bytes_of "plain") (bytes_of "plain") in
  Patch r = Some [] ∧ PatchType r = None ∧ carries_patch r = false.
Proof. simpl. split; [reflexivity|]. split; reflexivity. Qed.

(** ** The bytes of the patch *)

Lemma concat_head {A} (x : A) (bs : list (list A)) :
  Forall (λ b, ∃ t, b = x :: t) bs → concat bs ≠ [] → ∃ t, concat bs = x :: t.
Proof.
  intros HF Hne. destruct HF as [|b bs [t ->] _]; [done|]. simpl. by eexists.
Qed.

(** C9: a patch the refactored file carries is the encodings of the
    operations written one after the other, with nothing before, between or
    behind them, under the patch type JSONPatch.  When every operation is
    encoded as a JSON object, the patch starts with a brace: it is no JSON
    array. *)
Theorem Refactored_patch_not_an_array {S : PodSchema} {L : Library}
    (uid : string) (original current : bytes) :
  carries_patch (Refactored.patchResponseFromRaw uid original current) = true →
  ∃ patches bs,
    CreatePatch original current = Ok patches
    ∧ Forall2 (λ o b, MarshalJSON o = Ok b) patches bs
    ∧ Patch (Refactored.patchResponseFromRaw uid original current) = Some (concat bs)
    ∧ PatchType (Refactored.patchResponseFromRaw uid original current)
      = Some PatchTypeJSONPatch
    ∧ (Forall (λ b, ∃ t, b = x7b :: t) bs →
       (∃ t, concat bs = x7b :: t) ∧ bracketed (concat bs) = false).
Proof.
  intros Hc.
  pose proof (patchResponseFromRaw_invariant uid original current) as [Hpt _].
  specialize (Hpt Hc). revert Hc Hpt.
  destruct (patchResponseFromRaw_cases uid original current)
    as [[err ->]|(patches & bs & Hd & Hbs & ->)]; [discriminate|].
  unfold carries_patch, carries_patchType, len. simpl. intros Hc Hpt.
  assert (Hne : concat bs ≠ []).
  { intros Hnil. rewrite Hnil in Hc. discriminate. }
  exists patches, bs. split; [exact Hd|]. split; [exact Hbs|].
  split; [reflexivity|]. split.
  - by destruct (Nat.eqb (length patches) 0).
  - intros Hobj. destruct (concat_head x7b bs Hobj Hne) as [t Ht].
    split; [by exists t|]. rewrite Ht. reflexivity.
Qed.

Lemma Refactored_patch_not_an_array_witness :
  ∃ r, Fake.refactored (Fake.up [Fake.db]) (Fake.review "u1" "labelled") = Returns r
       ∧ ∃ t, Patch r = Some (x7b :: t)
              ∧ bracketed (x7b :: t) = false
              ∧ PatchType r = Some PatchTypeJSONPatch.
Proof.
  eexists. split; [reflexivity|].
  destruct (@Refactored_patch_not_an_array Fake.schema (Fake.up [Fake.db]) "u1"
              (bytes_of "labelled")
              (bytes_of "web 10.0.0.5=db.prod.svc.cluster.local,db.prod.svc,db.prod"))
    as (patches & bs & Hd & Hbs & Hp & Hpt & Hobj); [reflexivity|].
  injection Hd as <-.
  apply Forall2_cons_inv_l in Hbs as (b & bs' & Hb & Hnil & ->).
  apply Forall2_nil_inv_l in Hnil as ->. injection Hb as <-.
  destruct Hobj as [[t Ht] Hbr].
  { constructor; [|constructor]. eexists. reflexivity. }
  exists t. rewrite <- Ht. split; [exact Hp|]. split; [exact Hbr|exact Hpt].
Defined.

(** Two operations give two objects back to back. *)
Lemma Refactored_patch_two_operations {S : PodSchema} {L : Library}
    (uid : string) (original current : bytes) (o1 o2 : Operation) (b1 b2 : bytes) :
  CreatePatch original current = Ok [o1; o2] →
  MarshalJSON o1 = Ok b1 →
  MarshalJSON o2 = Ok b2 →
  Patch (Refactored.patchResponseFromRaw uid original current) = Some (b1 ++ b2).
Proof.
  intros Hd H1 H2. unfold Refactored.patchResponseFromRaw. rewrite Hd. simpl.
  rewrite H1. simpl. rewrite H2. reflexivity.
Qed.

(** The patch of [main.go] is an array, but always the same one. *)
Example MainGo_patch_bracketed : bracketed MainGo.marshal_literal = true.
Proof. reflexivity. Qed.

(** ** Two runs *)

Lemma settled_start {S : PodSchema} {L : Library} : settled start.
Proof. by left. Qed.

Lemma client_settled {S : PodSchema} {L : Library} (p : Process) :
  settled p → settled (client p).2.
Proof.
  unfold client. intros [[Hd Hc]|[Hd Hc]]; rewrite Hd.
  - right. destruct newClient as [c|err]; simpl; by rewrite ?Hc.
  - right. by simpl.
Qed.

Lemma getHostAliasesFromServices_state {S : PodSchema} {L : Library} (p : Process) :
  (getHostAliasesFromServices p).2 = (client p).2.
Proof.
  unfold getHostAliasesFromServices, bind.
  destruct (client p) as [[[c|]|msg] p']; simpl; try reflexivity.
  by destruct (Services_List c).
Qed.

Lemma Refactored_state {S : PodSchema} {L : Library} (req : AdmissionReview) (p : Process) :
  (Refactored.mutatePods req p).2 = p ∨ (Refactored.mutatePods req p).2 = (client p).2.
Proof.
  unfold Refactored.mutatePods, bind, deref.
  destruct (Request req) as [request|]; simpl; [|by left].
  destruct (json_Unmarshal (Object_Raw request)) as [pod err].
  destruct (isWatching pod); simpl; [|by left].
  right. rewrite <- getHostAliasesFromServices_state.
  destruct (getHostAliasesFromServices p) as [[[hostAliases|err']|msg] p1]; simpl;
    try reflexivity.
  destruct (Nat.eqb (len hostAliases) 0); [reflexivity|].
  by destruct (json_Marshal _).
Qed.

Lemma MainGo_state {S : PodSchema} {L : Library} (req : AdmissionReview) (p : Process) :
  (MainGo.mutatePods req p).2 = p ∨ (MainGo.mutatePods req p).2 = (client p).2.
Proof.
  unfold MainGo.mutatePods, bind, deref.
  destruct (Request req) as [request|]; simpl; [|by left].
  destruct (json_Unmarshal (Object_Raw request)) as [pod [err|]]; [by left|].
  destruct (isWatching pod); simpl; [|by left].
  right. rewrite <- getHostAliasesFromServices_state.
  destruct (getHostAliasesFromServices p) as [[[hostAliases|err']|msg] p1]; simpl;
    try reflexivity.
  by destruct (Nat.eqb (len hostAliases) 0).
Qed.

Lemma reachable_settled {S : PodSchema} {L : Library}
    (handler : AdmissionReview → Go AdmissionResponse) (p : Process) :
  handler = Refactored.mutatePods ∨ handler = MainGo.mutatePods →
  reachable handler p → settled p.
Proof.
  intros Hh. induction 1 as [|p req _ IH]; [apply settled_start|].
  destruct Hh as [-> | ->].
  - destruct (Refactored_state req p) as [-> | ->]; [exact IH|by apply client_settled].
  - destruct (MainGo_state req p) as [-> | ->]; [exact IH|by apply client_settled].
Qed.

(** In any two states of the process the listing gives the same, or
    panics in both. *)
Lemma getHostAliasesFromServices_agree {S : PodSchema} {L : Library} (p1 p2 : Process) :
  settled p1 → settled p2 →
  agree (getHostAliasesFromServices p1).1 (getHostAliasesFromServices p2).1.
Proof.
  unfold getHostAliasesFromServices, bind, client.
  intros [[Hd1 Hc1]|[Hd1 Hc1]] [[Hd2 Hc2]|[Hd2 Hc2]];
    rewrite Hd1, Hd2, ?Hc1, ?Hc2;
    destruct newClient as [c|err]; simpl; try done;
    destruct (Services_List c); by simpl.
Qed.

Ltac agree_on_listing p1 p2 H1 H2 :=
  let Hg := fresh "Hg" in
  pose proof (getHostAliasesFromServices_agree p1 p2 H1 H2) as Hg;
  destruct (getHostAliasesFromServices p1) as [[[? | ?] | ?] ?];
  destruct (getHostAliasesFromServices p2) as [[[? | ?] | ?] ?];
  simpl in Hg |- *; try done; try discriminate; injection Hg as <-.

Lemma Refactored_agree {S : PodSchema} {L : Library}
    (req : AdmissionReview) (p1 p2 : Process) :
  settled p1 → settled p2 →
  agree (Refactored.mutatePods req p1).1 (Refactored.mutatePods req p2).1.
Proof.
  intros H1 H2. unfold Refactored.mutatePods, bind, deref.
  destruct (Request req) as [request|]; simpl; [|done].
  destruct (json_Unmarshal (Object_Raw request)) as [pod err].
  destruct (isWatching pod); simpl; [|done].
  agree_on_listing p1 p2 H1 H2; [|done].
  destruct (Nat.eqb (len _) 0); [done|]. by destruct (json_Marshal _).
Qed.

Lemma MainGo_agree {S : PodSchema} {L : Library}
    (req : AdmissionReview) (p1 p2 : Process) :
  settled p1 → settled p2 →
  agree (MainGo.mutatePods req p1).1 (MainGo.mutatePods req p2).1.
Proof.
  intros H1 H2. unfold MainGo.mutatePods, bind, deref.
  destruct (Request req) as [request|]; simpl; [|done].
  destruct (json_Unmarshal (Object_Raw request)) as [pod [err|]]; [done|].
  destruct (isWatching pod); simpl; [|done].
  agree_on_listing p1 p2 H1 H2; [|done].
  by destruct (Nat.eqb (len _) 0).
Qed.

(** With the libraries taken as functions of their arguments, the response
    to a request does not depend on the state the process is in, that is on
    the requests served before: two runs on the same request give the same
    response, field by field, or both panic.  This holds of both versions. *)
Lemma mutatePods_deterministic {S : PodSchema} {L : Library}
    (handler : AdmissionReview → Go AdmissionResponse)
    (req : AdmissionReview) (p1 p2 : Process) :
  handler = Refactored.mutatePods ∨ handler = MainGo.mutatePods →
  reachable handler p1 →
  reachable handler p2 →
  agree (handler req p1).1 (handler req p2).1
  ∧ (∀ r, (handler req p1).1 = Returns r → (handler req p2).1 = Returns r).
Proof.
  intros Hh Hp1 Hp2.
  pose proof (reachable_settled handler p1 Hh Hp1) as H1.
  pose proof (reachable_settled handler p2 Hh Hp2) as H2.
  assert (Ha : agree (handler req p1).1 (handler req p2).1).
  { destruct Hh as [-> | ->]; [by apply Refactored_agree | by apply MainGo_agree]. }
  split; [exact Ha|]. intros r Hr. rewrite Hr in Ha.
  destruct ((handler req p2).1) as [r2|msg]; simpl in Ha; [by subst|done].
Qed.

Lemma mutatePods_deterministic_witness :
  (@Refactored.mutatePods Fake.schema (Fake.up [Fake.db])
     (Fake.review "u2" "labelled")
     (@Refactored.mutatePods Fake.schema (Fake.up [Fake.db])
        (Fake.review "u1" "labelled") start).2).1
  = Fake.refactored (Fake.up [Fake.db]) (Fake.review "u2" "labelled").
Proof.
  destruct (@mutatePods_deterministic Fake.schema (Fake.up [Fake.db])
              Refactored.mutatePods (Fake.review "u2" "labelled") start
              (@Refactored.mutatePods Fake.schema (Fake.up [Fake.db])
                 (Fake.review "u1" "labelled") start).2) as [_ Hsame].
  - by left.
  - constructor.
  - apply reachable_served. constructor.
  - unfold Fake.refactored.
    destruct ((@Refactored.mutatePods Fake.schema (Fake.up [Fake.db])
                 (Fake.review "u2" "labelled") start).1) as [r|msg] eqn:Hrun.
    + exact (Hsame r eq_refl).
    + discriminate Hrun.
Defined.

(** A client that cannot be built: the first request of an eligible Pod
    panics in the initialisation, the next one on the nil handle. *)
Example no_client_panics_twice :
  let L := Fake.library (Err "no configuration") (Ok [Fake.db]) in
  let run := @Refactored.mutatePods Fake.schema L (Fake.review "u1" "labelled") in
  (run start).1
  = Panics "error creating Kubernetes client: error building kubeconfig: no configuration"
  ∧ (run (run start).2).1 = Panics "invalid memory address or nil pointer dereference".
Proof. split; reflexivity. Qed.

(** * Further properties of the code *)

(** ** The marker label *)

(** X1: a Pod is eligible as soon as its labels hold the key [k8s-app],
    whatever the value, the empty string included; it is not once the key is
    deleted; and setting or deleting any other label changes nothing. *)
Theorem isWatching_insert_delete {S : PodSchema}
    (m : gmap string string) (h : slice HostAlias) (r : PodRest) (k v : string) :
  isWatching {| Labels := Some (<[watchingLabelKey := v]> m);
                Spec_HostAliases := h; rest := r |} = true
  ∧ isWatching {| Labels := Some (<[watchingLabelKey := EmptyString]> m);
                  Spec_HostAliases := h; rest := r |} = true
  ∧ isWatching {| Labels := Some (delete watchingLabelKey m);
                  Spec_HostAliases := h; rest := r |} = false
  ∧ (k ≠ watchingLabelKey →
     isWatching {| Labels := Some (<[k := v]> m); Spec_HostAliases := h; rest := r |}
     = isWatching {| Labels := Some m; Spec_HostAliases := h; rest := r |}
     ∧ isWatching {| Labels := Some (delete k m); Spec_HostAliases := h; rest := r |}
       = isWatching {| Labels := Some m; Spec_HostAliases := h; rest := r |}).
Proof.
  unfold isWatching, map_index. simpl.
  rewrite !lookup_insert_eq, lookup_delete_eq.
  split; [reflexivity|]. split; [reflexivity|]. split; [reflexivity|].
  intros Hk. by rewrite lookup_insert_ne, lookup_delete_ne.
Qed.

Lemma isWatching_insert_delete_witness :
  isWatching (@Build_Pod Fake.schema (Some (<["tier" := "db"]> {[ "k8s-app" := "x" ]})) None "web")
  = isWatching Fake.labelled_pod.
Proof.
  apply (@isWatching_insert_delete Fake.schema {[ "k8s-app" := "x" ]} None "web" "tier" "db").
  discriminate.
Defined.

(** ** The aliases *)

Lemma append_cons (x : Ascii.ascii) (a b : string) :
  String x a +:+ b = String x (a +:+ b).
Proof. reflexivity. Qed.

Lemma prefix_append (a b : string) : String.prefix a (a +:+ b) = true.
Proof.
  induction a as [|c a IH]; [by destruct b|].
  rewrite append_cons. simpl. destruct (Ascii.ascii_dec c c); [exact IH|done].
Qed.

Lemma append_assoc (a b c : string) : (a +:+ b) +:+ c = a +:+ (b +:+ c).
Proof.
  induction a as [|x a IH]; [reflexivity|]. by rewrite !append_cons, IH.
Qed.

Lemma prefix_refl (a : string) : String.prefix a a = true.
Proof.
  induction a as [|c a IH]; simpl; [reflexivity|].
  destruct (Ascii.ascii_dec c c); [exact IH|done].
Qed.

Lemma names_assoc (name namespace suffix : string) :
  name +:+ "." +:+ namespace +:+ suffix = (name +:+ "." +:+ namespace) +:+ suffix.
Proof. by rewrite !append_assoc. Qed.

Lemma contribution_sound (s : Service) (a : HostAlias) :
  a ∈ contribution s →
  Spec_Type s = ServiceTypeClusterIP
  ∧ IP a = Spec_ClusterIP s
  ∧ IP a ≠ EmptyString ∧ IP a ≠ "None"
  ∧ length (Hostnames a) = 3
  ∧ Forall (λ n, String.prefix (GetName s +:+ "." +:+ GetNamespace s) n = true)
      (Hostnames a).
Proof.
  unfold contribution, qualifies. case_bool_decide as Hq; [|by intros ?%elem_of_nil].
  destruct Hq as (Ht & He & Hn). intros ->%list_elem_of_singleton. simpl.
  repeat split; try done.
  unfold three_names. repeat constructor.
  - rewrite names_assoc. apply prefix_append.
  - rewrite names_assoc. apply prefix_append.
  - apply prefix_refl.
Qed.

(** X2: every alias [getHostAliasesFromServices] returns comes from a
    Service of the listing that has the type ClusterIP; its IP is the
    clusterIP of that Service and is neither empty nor [None]; it has
    exactly three hostnames, and each starts with name.namespace of that
    Service. *)
Theorem getHostAliasesFromServices_sound {S : PodSchema} {L : Library}
    (p : Process) (c : Clientset) (items : list Service) (hostAliases : slice HostAlias) :
  (client p).1 = Returns (Some c) →
  Services_List c = Ok items →
  (getHostAliasesFromServices p).1 = Returns (Ok hostAliases) →
  Forall
    (λ a, ∃ s, s ∈ items
               ∧ Spec_Type s = ServiceTypeClusterIP
               ∧ IP a = Spec_ClusterIP s
               ∧ IP a ≠ EmptyString ∧ IP a ≠ "None"
               ∧ length (Hostnames a) = 3
               ∧ Forall (λ n, String.prefix (GetName s +:+ "." +:+ GetNamespace s) n = true)
                   (Hostnames a))
    (elems hostAliases).
Proof.
  intros Hc Hl. rewrite (getHostAliasesFromServices_listed p c items Hc Hl).
  simpl. intros [= <-]. rewrite hostAliases_of_items_derived.
  apply Forall_forall. intros a Ha. unfold derived in Ha.
  apply list_elem_of_In, in_flat_map in Ha as (s & Hs & Ha).
  exists s. split; [by apply list_elem_of_In|].
  apply contribution_sound. by apply list_elem_of_In.
Qed.

Lemma getHostAliasesFromServices_sound_witness :
  Forall
    (λ a, ∃ s, s ∈ [Fake.db; Fake.headless; Fake.gateway]
               ∧ Spec_Type s = ServiceTypeClusterIP
               ∧ IP a = Spec_ClusterIP s
               ∧ IP a ≠ EmptyString ∧ IP a ≠ "None"
               ∧ length (Hostnames a) = 3
               ∧ Forall (λ n, String.prefix (GetName s +:+ "." +:+ GetNamespace s) n = true)
                   (Hostnames a))
    [ {| IP := "10.0.0.5";
         Hostnames := ["db.prod.svc.cluster.local"; "db.prod.svc"; "db.prod"] |} ].
Proof.
  apply (@getHostAliasesFromServices_sound Fake.schema
           (Fake.up [Fake.db; Fake.headless; Fake.gateway]) start "in-cluster"
           [Fake.db; Fake.headless; Fake.gateway]
           (Some [ {| IP := "10.0.0.5";
                      Hostnames := ["db.prod.svc.cluster.local"; "db.prod.svc"; "db.prod"] |} ]));
    reflexivity.
Defined.

Lemma derived_app (a b : list Service) : derived (a ++ b) = derived a ++ derived b.
Proof. unfold derived. apply flat_map_app. Qed.

(** X3: the aliases follow the listing.  Those of two listings put one
    after the other are the aliases of the first followed by those of the
    second, so a Service that is listed twice gives its alias twice; there
    are never more aliases than Services; and the result is the nil slice
    only for the empty listing. *)
Theorem hostAliases_of_items_app (a b : list Service) :
  elems (hostAliases_of_items (a ++ b))
  = elems (hostAliases_of_items a) ++ elems (hostAliases_of_items b)
  ∧ elems (hostAliases_of_items (a ++ a))
    = elems (hostAliases_of_items a) ++ elems (hostAliases_of_items a)
  ∧ len (hostAliases_of_items a) ≤ length a
  ∧ (hostAliases_of_items a = None ↔ a = []).
Proof.
  rewrite !hostAliases_of_items_derived, !derived_app.
  split; [reflexivity|]. split; [reflexivity|]. split.
  - unfold len. rewrite hostAliases_of_items_derived, derived_length.
    apply length_filter.
  - unfold hostAliases_of_items. destruct a as [|s a]; [done|].
    change (Nat.eqb (length (s :: a)) 0) with false. cbv iota.
    unfold make. rewrite hostAliases_loop. split; discriminate.
Qed.

(** ** The client handle *)

(** X4: once [client] has returned a handle, every later call returns the
    same handle and leaves the process as it is: the client is built at most
    once. *)
Theorem client_once {S : PodSchema} {L : Library}
    (p : Process) (handle : option Clientset) :
  (client p).1 = Returns handle →
  client (client p).2 = (Returns handle, (client p).2)
  ∧ initClient_done (client p).2 = true.
Proof.
  unfold client. destruct (initClient_done p) eqn:Hd; simpl.
  - intros [= <-]. by rewrite Hd.
  - destruct newClient as [c|err]; simpl; [|discriminate]. by intros [= <-].
Qed.

Lemma client_once_witness :
  @client Fake.schema (Fake.up []) (@client Fake.schema (Fake.up []) start).2
  = (Returns (Some "in-cluster"), (@client Fake.schema (Fake.up []) start).2).
Proof.
  apply (@client_once Fake.schema (Fake.up []) start (Some "in-cluster")). reflexivity.
Defined.

(** X5: [client] panics only on the first call, when the client cannot be
    built; the message is that of the error, which is the error of
    [NewForConfig] or starts with [error building kubeconfig: ].  The build
    is not tried again: the next call returns the handle that was there,
    and when that is nil the listing panics on it. *)
Theorem client_never_retried {S : PodSchema} {L : Library}
    (p : Process) (msg : string) :
  (client p).1 = Panics msg →
  initClient_done p = false
  ∧ (∃ err, newClient = Err err
            ∧ msg = "error creating Kubernetes client: " +:+ err
            ∧ ((∃ config, NewForConfig config = Err err)
               ∨ String.prefix "error building kubeconfig: " err = true))
  ∧ client (client p).2 = (Returns (_cli p), (client p).2)
  ∧ (_cli p = None →
     (getHostAliasesFromServices (client p).2).1
     = Panics "invalid memory address or nil pointer dereference").
Proof.
  unfold getHostAliasesFromServices, bind, client.
  destruct (initClient_done p) eqn:Hd; simpl; [discriminate|].
  destruct newClient as [c|err] eqn:Hn; simpl; [discriminate|].
  intros [= <-]. split; [reflexivity|]. split; [|split; [reflexivity|by intros ->]].
  exists err. split; [reflexivity|]. split; [reflexivity|].
  unfold newClient in Hn.
  destruct InClusterConfig as [config|e].
  - left. by exists config.
  - destruct (BuildConfigFromFlags _ _) as [config|e'].
    + left. by exists config.
    + right. injection Hn as <-. apply prefix_append.
Qed.

Lemma client_never_retried_witness :
  (@getHostAliasesFromServices Fake.schema
     (Fake.library (Err "no configuration") (Ok [Fake.db]))
     (@client Fake.schema (Fake.library (Err "no configuration") (Ok [Fake.db])) start).2).1
  = Panics "invalid memory address or nil pointer dereference".
Proof.
  apply (@client_never_retried Fake.schema
           (Fake.library (Err "no configuration") (Ok [Fake.db])) start
           "error creating Kubernetes client: error building kubeconfig: no configuration");
    reflexivity.
Defined.

(** ** No alias *)

Lemma derived_none (items : list Service) :
  Forall (λ s, Spec_Type s ≠ ServiceTypeClusterIP
               ∨ Spec_ClusterIP s = EmptyString
               ∨ Spec_ClusterIP s = "None") items →
  derived items = [].
Proof.
  induction 1 as [|s items Hs _ IH]; [reflexivity|].
  unfold derived in *. simpl. rewrite IH, app_nil_r.
  unfold contribution, qualifies. case_bool_decide as Hq; [|reflexivity].
  unfold ServiceTypeClusterIP in Hs. tauto.
Qed.

(** X6: for an eligible Pod, when the directory lists no Service, or only
    Services of another type or without a concrete clusterIP, both versions
    allow the request with the message [No host aliases found] and without
    a patch; the Pod is not encoded and nothing is diffed. *)
Theorem no_alias_allowed_unchanged {S : PodSchema} {L : Library}
    (req : AdmissionReview) (request : AdmissionRequest) (pod : Pod)
    (err : option error) (p : Process) (c : Clientset) (items : list Service) :
  Request req = Some request →
  json_Unmarshal (Object_Raw request) = (pod, err) →
  isWatching pod = true →
  (client p).1 = Returns (Some c) →
  Services_List c = Ok items →
  Forall (λ s, Spec_Type s ≠ ServiceTypeClusterIP
               ∨ Spec_ClusterIP s = EmptyString
               ∨ Spec_ClusterIP s = "None") items →
  Refactored.mutatePods req p
  = (Returns {| UID := req_UID request; Allowed := true;
                Result := Some {| Code := 0; Message := "No host aliases found" |};
                Patch := None; PatchType := None; Warnings := None |},
     (client p).2)
  ∧ (err = None →
     MainGo.mutatePods req p
     = (Returns {| UID := EmptyString; Allowed := true;
                   Result := Some {| Code := 0; Message := "No host aliases found" |};
                   Patch := None; PatchType := None; Warnings := None |},
        (client p).2)).
Proof.
  intros Hr Hd Hw Hc Hl Hnone.
  assert (H0 : Nat.eqb (len (hostAliases_of_items items)) 0 = true).
  { apply Nat.eqb_eq, len_nil_elems.
    rewrite hostAliases_of_items_derived. by apply derived_none. }
  split.
  - unfold Refactored.mutatePods, bind. rewrite Hr. simpl. rewrite Hd, Hw. simpl.
    rewrite (getHostAliasesFromServices_listed p c items Hc Hl). by rewrite H0.
  - intros ->. unfold MainGo.mutatePods, bind. rewrite Hr. simpl. rewrite Hd, Hw. simpl.
    rewrite (getHostAliasesFromServices_listed p c items Hc Hl). by rewrite H0.
Qed.

Lemma no_alias_allowed_unchanged_witness :
  Fake.refactored (Fake.up [Fake.headless; Fake.gateway]) (Fake.review "u1" "labelled")
  = Returns {| UID := "u1"; Allowed := true;
               Result := Some {| Code := 0; Message := "No host aliases found" |};
               Patch := None; PatchType := None; Warnings := None |}.
Proof.
  assert (Hnone : Forall (λ s, Spec_Type s ≠ ServiceTypeClusterIP
                              ∨ Spec_ClusterIP s = EmptyString
                              ∨ Spec_ClusterIP s = "None")
                    [Fake.headless; Fake.gateway]).
  { constructor; [right; right; reflexivity|].
    constructor; [left; discriminate|]. constructor. }
  unfold Fake.refactored.
  rewrite (proj1 (@no_alias_allowed_unchanged Fake.schema
             (Fake.up [Fake.headless; Fake.gateway])
             (Fake.review "u1" "labelled")
             {| req_UID := "u1"; Object_Raw := bytes_of "labelled" |}
             Fake.labelled_pod None start "in-cluster" [Fake.headless; Fake.gateway]
             eq_refl eq_refl eq_refl eq_refl eq_refl Hnone)).
  reflexivity.
Defined.

(** ** Adding the aliases *)

(** X7: adding aliases keeps the labels and the rest of the Pod, leaves a
    host-alias list that is not nil, and composes: adding [a] and then [b]
    is adding [a] followed by [b].  Nothing is merged, so adding the same
    aliases again makes the list longer: the mutation is not idempotent. *)
Theorem addHostAliases_compose {S : PodSchema} {L : Library}
    (pod : Pod) (a b : slice HostAlias) :
  Refactored.addHostAliases (Refactored.addHostAliases pod a) b
  = Refactored.addHostAliases pod (Some (elems a ++ elems b))
  ∧ Labels (Refactored.addHostAliases pod a) = Labels pod
  ∧ rest (Refactored.addHostAliases pod a) = rest pod
  ∧ Spec_HostAliases (Refactored.addHostAliases pod a)
    = Some (elems (Spec_HostAliases pod) ++ elems a)
  ∧ len (Spec_HostAliases (Refactored.addHostAliases (Refactored.addHostAliases pod a) a))
    = len (Spec_HostAliases pod) + len a + len a.
Proof.
  rewrite !addHostAliases_appends. unfold with_HostAliases, len. simpl.
  rewrite <- !app_assoc. repeat split; try reflexivity.
  rewrite !length_app. lia.
Qed.

(** ** Errors on the way to the patch *)

Lemma marshalPatches_first_failure {S : PodSchema} {L : Library}
    (uid : string) (pre : list Operation) (bs : list bytes) (o : Operation)
    (post : list Operation) (err : error) (acc : slice byte) :
  Forall2 (λ o b, MarshalJSON o = Ok b) pre bs →
  MarshalJSON o = Err err →
  Refactored.marshalPatches uid (pre ++ o :: post) acc
  = inl (Refactored.responseErrored uid StatusInternalServerError err).
Proof.
  intros Hpre Ho. revert acc.
  induction Hpre as [|o' b pre bs Ho' _ IH]; intros acc; simpl.
  - by rewrite Ho.
  - rewrite Ho'. apply IH.
Qed.

(** X8: when an operation of the difference does not encode, the response
    is the denial with the code 500 and the error of the first such
    operation; the encodings of the operations before it are dropped and
    those behind it are not looked at, so no partial patch is returned. *)
Theorem patchResponseFromRaw_first_failure {S : PodSchema} {L : Library}
    (uid : string) (original current : bytes) (pre : list Operation)
    (bs : list bytes) (o : Operation) (post : list Operation) (err : error) :
  CreatePatch original current = Ok (pre ++ o :: post) →
  Forall2 (λ o b, MarshalJSON o = Ok b) pre bs →
  MarshalJSON o = Err err →
  Refactored.patchResponseFromRaw uid original current
  = {| UID := uid; Allowed := false;
       Result := Some {| Code := 500; Message := err |};
       Patch := None; PatchType := None; Warnings := None |}.
Proof.
  intros Hd Hpre Ho. unfold Refactored.patchResponseFromRaw. rewrite Hd.
  by rewrite (marshalPatches_first_failure uid pre bs o post err make Hpre Ho).
Qed.

Lemma patchResponseFromRaw_first_failure_witness :
  @Refactored.patchResponseFromRaw Fake.schema
    (Faulty.library (Ok (bytes_of "web"))
       (Ok [("add", "/spec/hostAliases", "a"); ("test", "/x", "b");
            ("remove", "/y", EmptyString)]))
    "u1" (bytes_of "labelled") (bytes_of "web")
  = {| UID := "u1"; Allowed := false;
       Result := Some {| Code := 500; Message := "json: unsupported value" |};
       Patch := None; PatchType := None; Warnings := None |}.
Proof.
  apply (@patchResponseFromRaw_first_failure Fake.schema
           (Faulty.library (Ok (bytes_of "web"))
              (Ok [("add", "/spec/hostAliases", "a"); ("test", "/x", "b");
                   ("remove", "/y", EmptyString)]))
           "u1" (bytes_of "labelled") (bytes_of "web")
           [("add", "/spec/hostAliases", "a")]
           [bytes_of (json_object [("op", "add"); ("path", "/spec/hostAliases");
                                   ("value", "a")])]
           ("test", "/x", "b") [("remove", "/y", EmptyString)]
           "json: unsupported value").
  - reflexivity.
  - constructor; [reflexivity|constructor].
  - reflexivity.
Defined.

(** X9: in the refactored file, for an eligible Pod and a directory with a
    qualifying Service, an error of the encoder of the Pod or of the differ
    ends the request with a denial that has the UID, the code 500 and the
    message of that error, and no patch. *)
Theorem Refactored_encoding_failure {S : PodSchema} {L : Library}
    (req : AdmissionReview) (request : AdmissionRequest) (pod : Pod)
    (derr : option error) (p : Process) (c : Clientset) (items : list Service)
    (err : error) :
  Request req = Some request →
  json_Unmarshal (Object_Raw request) = (pod, derr) →
  isWatching pod = true →
  (client p).1 = Returns (Some c) →
  Services_List c = Ok items →
  derived items ≠ [] →
  json_Marshal (with_HostAliases pod
                  (Some (elems (Spec_HostAliases pod) ++ derived items))) = Err err
  ∨ (∃ resp, json_Marshal (with_HostAliases pod
                             (Some (elems (Spec_HostAliases pod) ++ derived items)))
             = Ok resp
             ∧ CreatePatch (Object_Raw request) resp = Err err) →
  (Refactored.mutatePods req p).1
  = Returns {| UID := req_UID request; Allowed := false;
               Result := Some {| Code := 500; Message := err |};
               Patch := None; PatchType := None; Warnings := None |}.
Proof.
  intros Hr Hd Hw Hc Hl Hne Hfail.
  rewrite (Refactored_patched req request pod derr p c items Hr Hd Hw Hc Hl Hne). simpl.
  destruct Hfail as [-> | (resp & -> & Hdiff)]; [reflexivity|].
  unfold Refactored.patchResponseFromRaw. by rewrite Hdiff.
Qed.

Lemma Refactored_encoding_failure_witness :
  Fake.refactored (Faulty.library (Ok (bytes_of "web")) (Err "Invalid JSON Document"))
    (Fake.review "u1" "labelled")
  = Returns {| UID := "u1"; Allowed := false;
               Result := Some {| Code := 500; Message := "Invalid JSON Document" |};
               Patch := None; PatchType := None; Warnings := None |}.
Proof.
  apply (@Refactored_encoding_failure Fake.schema
           (Faulty.library (Ok (bytes_of "web")) (Err "Invalid JSON Document"))
           (Fake.review "u1" "labelled")
           {| req_UID := "u1"; Object_Raw := bytes_of "labelled" |}
           Fake.labelled_pod None start "in-cluster" [Fake.db]);
    try reflexivity; [discriminate|].
  right. exists (bytes_of "web"). split; reflexivity.
Defined.

(** X10: in the refactored file, for an eligible Pod and a directory with a
    qualifying Service, when the Pod with the aliases appended encodes, the
    differ finds operations and all of them encode, the request is allowed
    with the UID, no status, the patch type JSONPatch and, as the patch,
    the encodings of the operations in their order.  The document that is
    diffed against the raw object is the encoding of the decoded Pod with
    the derived aliases behind its own. *)
Theorem Refactored_allowed_with_patch {S : PodSchema} {L : Library}
    (req : AdmissionReview) (request : AdmissionRequest) (pod : Pod)
    (derr : option error) (p : Process) (c : Clientset) (items : list Service)
    (resp : bytes) (o : Operation) (patches : list Operation) (bs : list bytes) :
  Request req = Some request →
  json_Unmarshal (Object_Raw request) = (pod, derr) →
  isWatching pod = true →
  (client p).1 = Returns (Some c) →
  Services_List c = Ok items →
  derived items ≠ [] →
  json_Marshal (with_HostAliases pod
                  (Some (elems (Spec_HostAliases pod) ++ derived items))) = Ok resp →
  CreatePatch (Object_Raw request) resp = Ok (o :: patches) →
  Forall2 (λ o b, MarshalJSON o = Ok b) (o :: patches) bs →
  (Refactored.mutatePods req p).1
  = Returns {| UID := req_UID request; Allowed := true; Result := None;
               Patch := Some (concat bs);
               PatchType := Some PatchTypeJSONPatch;
               Warnings := None |}.
Proof.
  intros Hr Hd Hw Hc Hl Hne Hm Hdiff Hbs.
  rewrite (Refactored_patched req request pod derr p c items Hr Hd Hw Hc Hl Hne). simpl.
  rewrite Hm.
  destruct (patchResponseFromRaw_cases (req_UID request) (Object_Raw request) resp)
    as [[err He]|(patches' & bs' & Hd' & Hbs' & ->)].
  - exfalso. revert He. unfold Refactored.patchResponseFromRaw. rewrite Hdiff.
    pose proof (marshalPatches_cases (req_UID request) (o :: patches) []) as Hcases.
    unfold make.
    destruct (Refactored.marshalPatches (req_UID request) (o :: patches) (Some []))
      as [r|pb] eqn:Hmp; [|discriminate].
    clear -Hbs Hmp. exfalso. revert Hmp. generalize (@Some bytes []).
    induction Hbs as [|o' b ps bs' Ho' _ IH]; intros acc; simpl; [discriminate|].
    rewrite Ho'. apply IH.
  - rewrite Hdiff in Hd'. injection Hd' as <-.
    assert (bs' = bs) as ->.
    { clear -Hbs Hbs'. revert bs' Hbs'.
      induction Hbs as [|o' b ps bs Ho' _ IH]; intros bs' Hbs'.
      - by apply Forall2_nil_inv_l in Hbs'.
      - apply Forall2_cons_inv_l in Hbs' as (b' & bs'' & Hb' & Hrest & ->).
        rewrite Ho' in Hb'. injection Hb' as <-. f_equal. by apply IH. }
    reflexivity.
Qed.

Lemma Refactored_allowed_with_patch_witness :
  ∃ b, Fake.refactored (Fake.up [Fake.db]) (Fake.review "u1" "labelled")
       = Returns {| UID := "u1"; Allowed := true; Result := None;
                    Patch := Some (concat [b]);
                    PatchType := Some PatchTypeJSONPatch;
                    Warnings := None |}.
Proof.
  eexists.
  apply (@Refactored_allowed_with_patch Fake.schema (Fake.up [Fake.db])
           (Fake.review "u1" "labelled")
           {| req_UID := "u1"; Object_Raw := bytes_of "labelled" |}
           Fake.labelled_pod None start "in-cluster" [Fake.db]
           (bytes_of "web 10.0.0.5=db.prod.svc.cluster.local,db.prod.svc,db.prod")
           ("replace", EmptyString,
            "web 10.0.0.5=db.prod.svc.cluster.local,db.prod.svc,db.prod") []);
    try reflexivity; [discriminate|].
  constructor; [reflexivity|constructor].
Defined.

(** ** Panics *)

(** X11: the refactored [mutatePods] panics exactly when the review has no
    request, or the Pod the decoder left is eligible and no handle can be
    had: the client cannot be built, or an earlier build failed and left
    nil.  [main.go] panics under the same conditions, but only for a Pod
    that decoded without error. *)
Theorem mutatePods_panics_iff {S : PodSchema} {L : Library}
    (req : AdmissionReview) (p : Process) :
  ((∃ msg, (Refactored.mutatePods req p).1 = Panics msg) ↔
   match Request req with
   | None => True
   | Some request =>
       isWatching (json_Unmarshal (Object_Raw request)).1 = true
       ∧ ((∃ msg, (client p).1 = Panics msg) ∨ (client p).1 = Returns None)
   end)
  ∧ ((∃ msg, (MainGo.mutatePods req p).1 = Panics msg) ↔
     match Request req with
     | None => True
     | Some request =>
         (json_Unmarshal (Object_Raw request)).2 = None
         ∧ isWatching (json_Unmarshal (Object_Raw request)).1 = true
         ∧ ((∃ msg, (client p).1 = Panics msg) ∨ (client p).1 = Returns None)
     end).
Proof.
  split.
  - unfold Refactored.mutatePods, getHostAliasesFromServices, bind, deref.
    destruct (Request req) as [request|]; simpl; [|split; [done|by eexists]].
    destruct (json_Unmarshal (Object_Raw request)) as [pod err]. simpl.
    destruct (isWatching pod); simpl.
    + destruct (client p) as [[[c|]|msg] p1]; simpl.
      * split.
        -- intros [msg Hm]. exfalso. revert Hm.
           destruct (Services_List c) as [items|e]; simpl; [|discriminate].
           destruct (Nat.eqb _ 0); [discriminate|].
           by destruct (json_Marshal _).
        -- intros (_ & [[msg ?]|?]); discriminate.
      * split; [|by eexists]. intros _. split; [reflexivity|by right].
      * split; [|by eexists]. intros _. split; [reflexivity|left; by eexists].
    + split; [intros [msg ?]; discriminate|]. intros (? & _). discriminate.
  - unfold MainGo.mutatePods, getHostAliasesFromServices, bind, deref.
    destruct (Request req) as [request|]; simpl; [|split; [done|by eexists]].
    destruct (json_Unmarshal (Object_Raw request)) as [pod [err|]]; simpl.
    { split; [intros [msg ?]; discriminate|]. intros (? & _). discriminate. }
    destruct (isWatching pod); simpl.
    + destruct (client p) as [[[c|]|msg] p1]; simpl.
      * split.
        -- intros [msg Hm]. exfalso. revert Hm.
           destruct (Services_List c) as [items|e]; simpl; [|discriminate].
           by destruct (Nat.eqb _ 0).
        -- intros (_ & _ & [[msg ?]|?]); discriminate.
      * split; [|by eexists]. intros _. split; [reflexivity|]. split; [reflexivity|by right].
      * split; [|by eexists]. intros _. split; [reflexivity|].
        split; [reflexivity|left; by eexists].
    + split; [intros [msg ?]; discriminate|]. intros (_ & ? & _). discriminate.
Qed.

Lemma mutatePods_panics_iff_witness :
  ∃ msg, (@Refactored.mutatePods Fake.schema
            (Fake.library (Err "no configuration") (Ok [Fake.db]))
            (Fake.review "u1" "labelled") start).1 = Panics msg.
Proof.
  apply (proj1 (@mutatePods_panics_iff Fake.schema
                  (Fake.library (Err "no configuration") (Ok [Fake.db]))
                  (Fake.review "u1" "labelled") start)).
  simpl. split; [reflexivity|]. left. eexists. reflexivity.
Defined.

(** X12: the client is built lazily.  A request changes the process only
    through [client]: after a request for an eligible Pod (in [main.go]:
    eligible and decoded without error) the process is as after one call of
    [client], and after a request for any other Pod it is as before.  One
    call of [client] leaves a process alone whose initialisation is done;
    otherwise it marks it as done and keeps in [_cli] the client it built,
    or what was there when the build failed. *)
Theorem client_built_lazily {S : PodSchema} {L : Library}
    (req : AdmissionReview) (request : AdmissionRequest) (p : Process) :
  Request req = Some request →
  (Refactored.mutatePods req p).2
  = (if isWatching (json_Unmarshal (Object_Raw request)).1 then (client p).2 else p)
  ∧ (MainGo.mutatePods req p).2
    = (if isWatching (json_Unmarshal (Object_Raw request)).1
          && bool_decide ((json_Unmarshal (Object_Raw request)).2 = None)
       then (client p).2 else p)
  ∧ (client p).2
    = (if initClient_done p then p
       else {| initClient_done := true;
               _cli := match newClient with
                       | Ok c => Some c
                       | Err _ => _cli p
                       end |}).
Proof.
  intros Hr. split; [|split].
  - unfold Refactored.mutatePods, bind. rewrite Hr. simpl.
    destruct (json_Unmarshal (Object_Raw request)) as [pod err]. simpl.
    destruct (isWatching pod); simpl; [|reflexivity].
    rewrite <- getHostAliasesFromServices_state.
    destruct (getHostAliasesFromServices p) as [[[h|e]|m] p1]; simpl; try reflexivity.
    destruct (Nat.eqb (len h) 0); [reflexivity|]. by destruct (json_Marshal _).
  - unfold MainGo.mutatePods, bind. rewrite Hr. simpl.
    destruct (json_Unmarshal (Object_Raw request)) as [pod [err|]]; simpl.
    { by rewrite andb_false_r. }
    destruct (isWatching pod); simpl; [|reflexivity].
    rewrite <- getHostAliasesFromServices_state.
    destruct (getHostAliasesFromServices p) as [[[h|e]|m] p1]; simpl; try reflexivity.
    by destruct (Nat.eqb (len h) 0).
  - unfold client. destruct (initClient_done p); [reflexivity|].
    by destruct newClient.
Qed.

Lemma client_built_lazily_witness :
  (@Refactored.mutatePods Fake.schema (Fake.up [Fake.db])
     (Fake.review "u1" "plain") start).2 = start
  ∧ (@Refactored.mutatePods Fake.schema (Fake.up [Fake.db])
       (Fake.review "u1" "labelled") start).2
    = @Build_Process Fake.schema (Fake.up [Fake.db]) true (Some "in-cluster").
Proof.
  split.
  - rewrite (proj1 (@client_built_lazily Fake.schema (Fake.up [Fake.db])
                      (Fake.review "u1" "plain")
                      {| req_UID := "u1"; Object_Raw := bytes_of "plain" |}
                      start eq_refl)).
    reflexivity.
  - rewrite (proj1 (@client_built_lazily Fake.schema (Fake.up [Fake.db])
                      (Fake.review "u1" "labelled")
                      {| req_UID := "u1"; Object_Raw := bytes_of "labelled" |}
                      start eq_refl)).
    reflexivity.
Defined.

(** ** The shape of a response *)

(** X13: in every response of the refactored file exactly one of the
    status and the patch is set, there are no warnings, and the request is
    refused exactly when the status has the code 500; a refusal has neither
    patch nor patch type. *)
Theorem Refactored_response_shape {S : PodSchema} {L : Library}
    (req : AdmissionReview) (request : AdmissionRequest)
    (p p' : Process) (r : AdmissionResponse) :
  Request req = Some request →
  Refactored.mutatePods req p = (Returns r, p') →
  Warnings r = None
  ∧ (Result r = None ↔ Patch r ≠ None)
  ∧ (Allowed r = false ↔ ∃ msg, Result r = Some {| Code := 500; Message := msg |})
  ∧ (Allowed r = false → Patch r = None ∧ PatchType r = None).
Proof.
  intros Hr Hrun.
  apply (Refactored_mutatePods_cases
           (λ r, Warnings r = None
                 ∧ (Result r = None ↔ Patch r ≠ None)
                 ∧ (Allowed r = false
                    ↔ ∃ msg, Result r = Some {| Code := 500; Message := msg |})
                 ∧ (Allowed r = false → Patch r = None ∧ PatchType r = None))
           req request p p' r); [| | |exact Hr|exact Hrun].
  - intros err. simpl. split; [reflexivity|]. split; [split; done|].
    split; [|done]. split; [by eexists|done].
  - intros msg. simpl. split; [reflexivity|]. split; [split; done|].
    split; [|done]. split; [done|]. intros [m Hm]. discriminate.
  - intros resp.
    destruct (patchResponseFromRaw_cases (req_UID request) (Object_Raw request) resp)
      as [[err ->]|(patches & bs & _ & _ & ->)]; simpl.
    + split; [reflexivity|]. split; [split; done|].
      split; [|done]. split; [by eexists|done].
    + split; [reflexivity|]. split; [split; done|].
      split; [|done]. split; [done|]. intros [m Hm]. discriminate.
Qed.

Lemma Refactored_response_shape_witness :
  ∃ r, Fake.refactored Fake.down (Fake.review "u1" "labelled") = Returns r
       ∧ Warnings r = None
       ∧ Allowed r = false
       ∧ ∃ msg, Result r = Some {| Code := 500; Message := msg |}.
Proof.
  eexists. split; [reflexivity|].
  destruct (@Refactored_response_shape Fake.schema Fake.down
              (Fake.review "u1" "labelled")
              {| req_UID := "u1"; Object_Raw := bytes_of "labelled" |}
              start _ _ eq_refl eq_refl) as (Hw & _ & Hdenied & _).
  split; [exact Hw|]. split; [reflexivity|]. apply Hdenied. reflexivity.
Defined.

(** X14: in every response of [main.go] exactly one of the status, the
    warnings and the patch is set.  A status never has a code; warnings come
    with a refusal; a patch comes with [allowed = true] and the patch type
    JSONPatch and is always the same bytes. *)
Theorem MainGo_response_shape {S : PodSchema} {L : Library}
    (req : AdmissionReview) (p p' : Process) (r : AdmissionResponse) :
  MainGo.mutatePods req p = (Returns r, p') →
  (∀ st, Result r = Some st → Code st = 0%Z
                              ∧ Warnings r = None ∧ Patch r = None)
  ∧ (Warnings r ≠ None → Allowed r = false ∧ Result r = None ∧ Patch r = None)
  ∧ (Patch r ≠ None →
     Allowed r = true ∧ PatchType r = Some PatchTypeJSONPatch
     ∧ Patch r = Some MainGo.marshal_literal
     ∧ Result r = None ∧ Warnings r = None)
  ∧ (Result r ≠ None ∨ Warnings r ≠ None ∨ Patch r ≠ None).
Proof.
  unfold MainGo.mutatePods, bind, deref. intros Hrun.
  destruct (Request req) as [request|]; simpl in Hrun; [|discriminate].
  destruct (json_Unmarshal (Object_Raw request)) as [pod [err|]].
  { injection Hrun as <- _. simpl. naive_solver. }
  destruct (isWatching pod); simpl in Hrun.
  - destruct (getHostAliasesFromServices p) as [[[hostAliases|err']|msg] p1];
      [| |discriminate].
    + destruct (Nat.eqb (len hostAliases) 0); injection Hrun as <- _; simpl;
        naive_solver.
    + injection Hrun as <- _. simpl. naive_solver.
  - injection Hrun as <- _. simpl. naive_solver.
Qed.

Lemma MainGo_response_shape_witness :
  ∃ r, Fake.main_go Fake.down (Fake.review "u1" "labelled") = Returns r
       ∧ Allowed r = false ∧ Result r = None ∧ Patch r = None.
Proof.
  eexists. split; [reflexivity|].
  destruct (@MainGo_response_shape Fake.schema Fake.down
              (Fake.review "u1" "labelled") start _ _ eq_refl) as (_ & Hw & _).
  apply Hw. discriminate.
Defined.

(** ** Witnesses on the fake *)

Lemma Refactored_uid_witness :
  ∃ r, Fake.refactored (Fake.up [Fake.db]) (Fake.review "u1" "mistyped") = Returns r
       ∧ UID r = "u1".
Proof.
  eexists. split; [reflexivity|].
  apply (@Refactored_uid Fake.schema (Fake.up [Fake.db])
           (Fake.review "u1" "mistyped")
           {| req_UID := "u1"; Object_Raw := bytes_of "mistyped" |}
           start (@Build_Process Fake.schema (Fake.up [Fake.db]) true (Some "in-cluster")));
    reflexivity.
Defined.

Lemma MainGo_decode_failure_witness :
  @MainGo.mutatePods Fake.schema Fake.down (Fake.review "u1" "mistyped") start
  = (Returns {| UID := EmptyString; Allowed := false;
                Result := Some {| Code := 0;
                                  Message := "json: cannot unmarshal number into Go struct field" |};
                Patch := None; PatchType := None; Warnings := None |}, start).
Proof.
  apply (@MainGo_decode_failure Fake.schema Fake.down (Fake.review "u1" "mistyped")
           {| req_UID := "u1"; Object_Raw := bytes_of "mistyped" |}
           Fake.labelled_pod); reflexivity.
Defined.

(** ** The handler *)

(** What the handler has done when it returns: one of four sequences of
    calls. *)
Lemma handleMutatePod_cases {S : PodSchema} {L : Library} {T : Transport}
    (engine : AdmissionReview → Go AdmissionResponse) (body : bytes)
    (p p' : Process) (calls : list call) :
  handleMutatePod engine body p = (Returns calls, p') →
  (∃ err, json_Decode body = Err err
          ∧ calls = [http_Error "could not decode request body" StatusBadRequest]
          ∧ p' = p)
  ∨ (∃ other review incoming r,
       json_Decode body = Ok (other, review, incoming)
       ∧ engine review p = (Returns r, p')
       ∧ ((∃ err, json_Encode other review (Some r) = Err err
                  ∧ calls = [http_Error "could not encode response"
                               StatusInternalServerError])
          ∨ (∃ b, json_Encode other review (Some r) = Ok b
                  ∧ (calls = [w_Write (b ++ [x0a])]
                     ∨ calls = [w_Write (b ++ [x0a]);
                                http_Error "could not encode response"
                                  StatusInternalServerError])))).
Proof.
  unfold handleMutatePod, bind.
  destruct (json_Decode body) as [[[other review] incoming]|err].
  - destruct (engine review p) as [[r|msg] p1] eqn:He; [|discriminate].
    intros Hrun. right. exists other, review, incoming, r. split; [reflexivity|].
    destruct (json_Encode other review (Some r)) as [b|err].
    + destruct (w_Write_err (b ++ [x0a])); injection Hrun as <- <-;
        (split; [exact He|]); right; exists b; split; eauto.
    + injection Hrun as <- <-. split; [exact He|]. left. by exists err.
  - intros [= <- <-]. left. by exists err.
Qed.

(** X15: the handler answers [could not decode request body] with the
    status 400 exactly when the body does not decode; it has then made no
    other call, has not run the engine and has left the process as it was. *)
Theorem handleMutatePod_bad_request {S : PodSchema} {L : Library} {T : Transport}
    (engine : AdmissionReview → Go AdmissionResponse) (body : bytes)
    (p p' : Process) (calls : list call) :
  handleMutatePod engine body p = (Returns calls, p') →
  (http_Error "could not decode request body" StatusBadRequest ∈ calls
   ↔ ∃ err, json_Decode body = Err err)
  ∧ ((∃ err, json_Decode body = Err err) →
     calls = [http_Error "could not decode request body" StatusBadRequest] ∧ p' = p).
Proof.
  intros Hrun.
  destruct (handleMutatePod_cases engine body p p' calls Hrun)
    as [(err & Hd & -> & ->)|(other & review & incoming & r & Hd & _ & Hcalls)].
  - split; [|done]. split; [by exists err|]. intros _. by apply list_elem_of_singleton.
  - split.
    + split; [|intros [err He]; by rewrite Hd in He].
      intros Hin. exfalso.
      destruct Hcalls as [(err & _ & ->)|(b & _ & [-> | ->])];
        repeat (apply elem_of_cons in Hin as [Hin|Hin]; [discriminate|]);
        by apply elem_of_nil in Hin.
    + intros [err He]. by rewrite Hd in He.
Qed.

Lemma handleMutatePod_bad_request_witness :
  @handleMutatePod Fake.schema (Fake.up [Fake.db]) FakeHTTP.transport
    Refactored.mutatePods (bytes_of "junk") start
  = (Returns [http_Error "could not decode request body" 400], start).
Proof.
  destruct (@handleMutatePod_bad_request Fake.schema (Fake.up [Fake.db])
              FakeHTTP.transport Refactored.mutatePods (bytes_of "junk")
              start start [http_Error "could not decode request body" 400] eq_refl)
    as [_ H].
  reflexivity.
Defined.

(** X16: end to end in the refactored file.  A review the handler writes
    is the encoding, followed by a newline, of the review it decoded with
    the response of the engine in it, whatever response the body held; it
    is the first call on the writer; and the response in it has the UID of
    the request in it. *)
Theorem Refactored_handler_echo {S : PodSchema} {L : Library} {T : Transport}
    (body : bytes) (p p' : Process) (calls : list call) (line : bytes) :
  handleMutatePod Refactored.mutatePods body p = (Returns calls, p') →
  w_Write line ∈ calls →
  ∃ other review incoming request r b,
    json_Decode body = Ok (other, review, incoming)
    ∧ Request review = Some request
    ∧ Refactored.mutatePods review p = (Returns r, p')
    ∧ UID r = req_UID request
    ∧ json_Encode other review (Some r) = Ok b
    ∧ line = b ++ [x0a]
    ∧ head calls = Some (w_Write line).
Proof.
  intros Hrun Hin.
  destruct (handleMutatePod_cases Refactored.mutatePods body p p' calls Hrun)
    as [(err & _ & -> & _)|(other & review & incoming & r & Hd & He & Hcalls)].
  { apply list_elem_of_singleton in Hin. discriminate. }
  destruct (Request review) as [request|] eqn:Hr.
  2:{ unfold Refactored.mutatePods, bind in He. rewrite Hr in He. discriminate. }
  assert (Huid : UID r = req_UID request).
  { apply (Refactored_mutatePods_cases (λ r, UID r = req_UID request)
             review request p p' r); try done.
    intros resp. apply patchResponseFromRaw_uid. }
  destruct Hcalls as [(err & _ & ->)|(b & Hb & Hc)].
  { apply list_elem_of_singleton in Hin. discriminate. }
  assert (line = b ++ [x0a]) as ->.
  { destruct Hc as [-> | ->].
    - apply list_elem_of_singleton in Hin. by injection Hin.
    - apply elem_of_cons in Hin as [Hin|Hin]; [by injection Hin|].
      apply list_elem_of_singleton in Hin. discriminate. }
  exists other, review, incoming, request, r, b.
  repeat split; try done. by destruct Hc as [-> | ->].
Qed.

Lemma Refactored_handler_echo_witness :
  ∃ other review incoming request r b,
    FakeHTTP.decode (bytes_of "review labelled") = Ok (other, review, incoming)
    ∧ Request review = Some request
    ∧ @Refactored.mutatePods Fake.schema (Fake.up [Fake.db]) review start
      = (Returns r, (@client Fake.schema (Fake.up [Fake.db]) start).2)
    ∧ UID r = req_UID request
    ∧ FakeHTTP.encode other review (Some r) = Ok b
    ∧ bytes_of "admission.k8s.io/v1 uid=u1 allowed=true" ++ [x0a] = b ++ [x0a]
    ∧ head [w_Write (bytes_of "admission.k8s.io/v1 uid=u1 allowed=true" ++ [x0a])]
      = Some (w_Write (bytes_of "admission.k8s.io/v1 uid=u1 allowed=true" ++ [x0a])).
Proof.
  apply (@Refactored_handler_echo Fake.schema (Fake.up [Fake.db]) FakeHTTP.transport
           (bytes_of "review labelled") start).
  - reflexivity.
  - by apply list_elem_of_singleton.
Defined.

(** X17: a body that decodes to a review without a request makes the
    handler of both versions panic on the nil pointer: no call is made on
    the writer, not even an error, and the process is left as it was. *)
Theorem handleMutatePod_without_request {S : PodSchema} {L : Library} {T : Transport}
    (body : bytes) (other : ReviewRest) (review : AdmissionReview)
    (incoming : option AdmissionResponse) (p : Process) :
  json_Decode body = Ok (other, review, incoming) →
  Request review = None →
  handleMutatePod Refactored.mutatePods body p
  = (Panics "invalid memory address or nil pointer dereference", p)
  ∧ handleMutatePod MainGo.mutatePods body p
    = (Panics "invalid memory address or nil pointer dereference", p).
Proof.
  intros Hd Hr.
  unfold handleMutatePod, Refactored.mutatePods, MainGo.mutatePods, bind, deref.
  by rewrite Hd, Hr.
Qed.

Lemma handleMutatePod_without_request_witness :
  FakeHTTP.refactored (Fake.up [Fake.db]) "review without request"
  = Panics "invalid memory address or nil pointer dereference"
  ∧ FakeHTTP.main_go (Fake.up [Fake.db]) "review without request"
    = Panics "invalid memory address or nil pointer dereference".
Proof.
  destruct (@handleMutatePod_without_request Fake.schema (Fake.up [Fake.db])
              FakeHTTP.transport (bytes_of "review without request")
              "admission.k8s.io/v1" {| Request := None |} None start eq_refl eq_refl)
    as [H1 H2].
  unfold FakeHTTP.refactored, FakeHTTP.main_go. by rewrite H1, H2.
Defined.

(** ** Two runs, two orders *)



















